(** * Résumé editor: template formatter, template parser, editor bridge

    A shallow embedding of the TypeScript sources of the résumé editor
    (the two [ResumeEditor] components, [useEditModeManager] and
    [useDirectEditMode]) together with the properties of the template
    round trip, of the editor bridge handlers and of the direct-edit
    hydration path. *)

From Stdlib Require Import String Ascii.
From Stdlib Require Import List NArith Bool Arith Lia.
Import ListNotations.

(** * JavaScript strings

    A JavaScript string is a finite sequence of UTF-16 code units.  All
    string operations used by the sources ([+], template literals,
    [replace], [trim], [match] with a non-unicode regular expression,
    [===]) work on code units, so a string is modelled as the list of
    its code units. *)

Module JS.

Local Open Scope N_scope.

Definition jsstring := list N.

(** Decoder from the UTF-8 bytes of a Rocq string literal to UTF-16 code
    units; it is only used to write the literals of the sources
    legibly. *)
Fixpoint utf16 (bs : list N) : jsstring :=
  match bs with
  | [] => []
  | b0 :: r0 =>
    if b0 <? 128 then b0 :: utf16 r0
    else
      match r0 with
      | [] => [65533]
      | b1 :: r1 =>
        if b0 <? 224 then ((b0 mod 32) * 64 + b1 mod 64) :: utf16 r1
        else
          match r1 with
          | [] => [65533]
          | b2 :: r2 =>
            if b0 <? 240
            then ((b0 mod 16) * 4096 + (b1 mod 64) * 64 + b2 mod 64) :: utf16 r2
            else
              match r2 with
              | [] => [65533]
              | b3 :: r3 =>
                let cp := (b0 mod 8) * 262144 + (b1 mod 64) * 4096
                          + (b2 mod 64) * 64 + b3 mod 64 - 65536 in
                (55296 + cp / 1024) :: (56320 + cp mod 1024) :: utf16 r3
              end
          end
      end
  end.

Definition lit (s : string) : jsstring :=
  utf16 (map N_of_ascii (list_ascii_of_string s)).

(** The line feed, written [\n] in the sources. *)
Definition nl : jsstring := [10].

Definition eqb (a b : jsstring) : bool :=
  if list_eq_dec N.eq_dec a b then true else false.

(** [s.length > 0], the truthiness of a string. *)
Definition nonEmpty (s : jsstring) : bool :=
  match s with [] => false | _ :: _ => true end.

(** ** Values of string-typed properties

    A property declared as a string can still be absent at run time
    ([undefined]) or [null]; the sources guard against it with
    [x || ""] and [x ? ... : ""]. *)
Inductive jsval : Type :=
| Undefined
| Null
| Str (s : jsstring).

(** ToBoolean. *)
Definition truthy (v : jsval) : bool :=
  match v with
  | Str s => nonEmpty s
  | _ => false
  end.

(** ToString, as applied by string concatenation and by [${...}]. *)
Definition toString (v : jsval) : jsstring :=
  match v with
  | Undefined => lit "undefined"
  | Null => lit "null"
  | Str s => s
  end.

(** [v || d] in a string position. *)
Definition orElse (v : jsval) (d : jsstring) : jsstring :=
  if truthy v then toString v else d.

(** The text a property holds; nothing when it is absent. *)
Definition strOf (v : jsval) : jsstring :=
  match v with
  | Str s => s
  | _ => []
  end.

(** ** String methods *)

Fixpoint stripPrefix (p s : jsstring) : option jsstring :=
  match p with
  | [] => Some s
  | a :: p' =>
    match s with
    | [] => None
    | b :: s' => if a =? b then stripPrefix p' s' else None
    end
  end.

(** [s.replace(p, r)] for a string pattern [p] and a replacement [r]
    without [$]: the first occurrence of [p] is replaced. *)
Fixpoint replaceFirst (p r s : jsstring) : jsstring :=
  match stripPrefix p s with
  | Some rest => r ++ rest
  | None =>
    match s with
    | [] => []
    | c :: s' => c :: replaceFirst p r s'
    end
  end.

(** [l.join(sep)]. *)
Fixpoint join (sep : jsstring) (l : list jsstring) : jsstring :=
  match l with
  | [] => []
  | [x] => x
  | x :: l' => x ++ sep ++ join sep l'
  end.

(** [s.indexOf(p)]; [None] stands for [-1]. *)
Fixpoint indexOf (p s : jsstring) : option nat :=
  match stripPrefix p s with
  | Some _ => Some 0%nat
  | None =>
    match s with
    | [] => None
    | _ :: s' => option_map S (indexOf p s')
    end
  end.

(** [s.includes(p)]. *)
Definition includes (p s : jsstring) : bool :=
  match indexOf p s with Some _ => true | None => false end.

(** WhiteSpace and LineTerminator code points of ECMAScript, the ones
    [trim] strips: TAB, LF, VT, FF, CR, SP, NBSP, U+1680, U+2000..U+200A,
    LS, PS, U+202F, U+205F, U+3000 and the BOM. *)
Definition isWhiteSpace (c : N) : bool :=
  ((9 <=? c) && (c <=? 13)) || (c =? 32) || (c =? 160) || (c =? 5760)
  || ((8192 <=? c) && (c <=? 8202)) || (c =? 8232) || (c =? 8233)
  || (c =? 8239) || (c =? 8287) || (c =? 12288) || (c =? 65279).

Fixpoint trimStart (s : jsstring) : jsstring :=
  match s with
  | [] => []
  | c :: s' => if isWhiteSpace c then trimStart s' else s
  end.

Definition trimEnd (s : jsstring) : jsstring := rev (trimStart (rev s)).

(** [s.trim()]. *)
Definition trim (s : jsstring) : jsstring := trimEnd (trimStart s).

(** ** Completions

    A call either returns normally or throws. *)
Inductive jserror : Type :=
| TypeError.

Inductive completion (A : Type) : Type :=
| Normal (a : A)
| Throw (e : jserror).

Arguments Normal {A} a.
Arguments Throw {A} e.

(** [v.trim()] on the value of an array element; calling a method on
    [undefined] throws a [TypeError]. *)
Definition callTrim (v : option jsstring) : completion jsstring :=
  match v with
  | Some s => Normal (trim s)
  | None => Throw TypeError
  end.

End JS.

Import JS.

(** * The structured record *)

(** Modelled from the spec: the declarations of [FormData] and
    [WorkExperience] (module [@/types/form]) are not among the sources.
    The records of the modules [Education], [CurrentJob],
    [WorkExperience], [EducationHistory] and [FormData] follow section 3
    of the specification and the object literal that [useDirectEditMode]
    builds; every string-typed property is a [jsval], so that an absent
    property can be told from an empty one, and [educationHistories],
    which the formatter tests before use, may be absent as a whole. *)
Module Education.
Record t : Type := mk {
  university : jsval;
  faculty : jsval;
  department : jsval;
  graduationDate : jsval
}.
Definition texts (e : t) : list jsval :=
  [university e; faculty e; department e; graduationDate e].
End Education.

Module CurrentJob.
Record t : Type := mk {
  companyName : jsval;
  companyUrl : jsval;
  startDate : jsval;
  position : jsval;
  title : jsval;
  achievements : jsval
}.
Definition texts (j : t) : list jsval :=
  [companyName j; companyUrl j; startDate j; position j; title j;
   achievements j].
End CurrentJob.

Module WorkExperience.
Record t : Type := mk {
  companyName : jsval;
  companyUrl : jsval;
  startDate : jsval;
  endDate : jsval;
  position : jsval;
  title : jsval;
  achievements : jsval;
  isSameAsCurrentCompany : bool
}.
Definition texts (j : t) : list jsval :=
  [companyName j; companyUrl j; startDate j; endDate j; position j; title j;
   achievements j].
End WorkExperience.

Module EducationHistory.
Record t : Type := mk {
  schoolName : jsval;
  graduationDate : jsval;
  department : jsval;
  faculty : jsval;
  major : jsval
}.
Definition texts (e : t) : list jsval :=
  [schoolName e; graduationDate e; department e; faculty e; major e].
End EducationHistory.

Module FormData.
Record t : Type := mk {
  id : jsval;
  name : jsval;
  industry : jsval;
  position : jsval;
  experience : jsval;
  skills : jsval;
  summary : jsval;
  description : jsval;
  education : Education.t;
  currentJob : CurrentJob.t;
  previousJobs : list WorkExperience.t;
  educationHistories : option (list EducationHistory.t);
  created_at : jsval;
  updated_at : jsval;
  user_id : jsval
}.

(** The entries of the additional-education list, none when the list is
    absent. *)
Definition additionalEducation (data : t) : list EducationHistory.t :=
  match educationHistories data with
  | Some l => l
  | None => []
  end.

(** The properties the formatter reads outside the details section. *)
Definition otherTexts (data : t) : list jsval :=
  [name data; position data; industry data; experience data; summary data;
   skills data]
  ++ CurrentJob.texts (currentJob data)
  ++ flat_map WorkExperience.texts (previousJobs data)
  ++ Education.texts (education data)
  ++ flat_map EducationHistory.texts (additionalEducation data).

(** Every property the formatter reads. *)
Definition texts (data : t) : list jsval :=
  otherTexts data ++ [description data].
End FormData.

(** * The formatter and the parser of [ResumeEditor]

    [formatDate], [parseTemplateContent] and [formatTemplateContent] are
    the same, character for character, in the two [ResumeEditor]
    components. *)

Definition formatDate (date : jsval) : jsstring :=
  if negb (truthy date) then lit ""
  else replaceFirst (lit "-") (lit "年") (toString date) ++ lit "月".

(** ** The regular expression of the parser

    [/## 職務詳細\n\n([\s\S]*?)$/], without flags: the literal header
    and two line feeds, then a lazy capture group of arbitrary code
    units, then [$], which without the [m] flag holds at the end of the
    input only. *)

Definition detailsHeader : jsstring := lit "## 職務詳細".

Definition detailsMarker : jsstring := detailsHeader ++ nl ++ nl.

(** The group [([\s\S]*?)] followed by [$]: the lazy quantifier first
    tries to stop; when [$] fails there it consumes one more code
    unit. *)
Fixpoint lazyGroupThenEnd (s : jsstring) : option jsstring :=
  match s with
  | [] => Some []
  | c :: s' => option_map (cons c) (lazyGroupThenEnd s')
  end.

(** A match attempt at the start of [s]; the result is the array of the
    whole match and of capture group 1. *)
Definition matchHere (s : jsstring) : option (list (option jsstring)) :=
  match stripPrefix detailsMarker s with
  | Some rest =>
    match lazyGroupThenEnd rest with
    | Some g => Some [Some (detailsMarker ++ g); Some g]
    | None => None
    end
  | None => None
  end.

(** [content.match(re)] for a regular expression without [g]: the start
    positions are tried from left to right; [None] stands for [null]. *)
Fixpoint regexpMatch (s : jsstring) : option (list (option jsstring)) :=
  match matchHere s with
  | Some m => Some m
  | None =>
    match s with
    | [] => None
    | _ :: s' => regexpMatch s'
    end
  end.

Definition parseTemplateContent (content : jsstring) : completion jsstring :=
  match regexpMatch content with
  | Some descriptionMatch => callTrim (nth 1 descriptionMatch None)
  | None => Normal content
  end.

(** ** The template *)

Definition placeholderPrompt : jsstring := lit "仕事内容を入力してください".

Definition otherEducationHeader : jsstring := lit "### その他学歴".

(** One entry of [data.educationHistories.map(...)]. *)
Definition educationHistoryEntry (edu : EducationHistory.t) : jsstring :=
  lit "### " ++ orElse (EducationHistory.schoolName edu) (lit "") ++ nl
  ++ lit "**卒業年月:** " ++ formatDate (EducationHistory.graduationDate edu)
  ++ lit "  " ++ nl
  ++ lit "**学部/学科:** " ++ orElse (EducationHistory.department edu) (lit "")
  ++ lit "  " ++ nl
  ++ (if truthy (EducationHistory.faculty edu)
      then lit "**学部:** " ++ toString (EducationHistory.faculty edu) ++ lit "  "
      else lit "") ++ nl
  ++ (if truthy (EducationHistory.major edu)
      then lit "**専攻:** " ++ toString (EducationHistory.major edu)
      else lit "").

(** The local constant [educationHistories] of the formatter. *)
Definition educationHistoriesText (data : FormData.t) : jsstring :=
  match FormData.educationHistories data with
  | Some l => join (nl ++ nl) (map educationHistoryEntry l)
  | None => lit ""
  end.

(** The interpolation
    [${educationHistories ? `### その他学歴\n\n${educationHistories}` : ""}]. *)
Definition otherEducationSection (data : FormData.t) : jsstring :=
  if nonEmpty (educationHistoriesText data)
  then otherEducationHeader ++ nl ++ nl ++ educationHistoriesText data
  else lit "".

(** One entry of [data.previousJobs.map(...)]. *)
Definition previousJobEntry (job : WorkExperience.t) : jsstring :=
  lit "### " ++ orElse (WorkExperience.companyName job) (lit "") ++ nl
  ++ nl
  ++ (if truthy (WorkExperience.companyUrl job)
      then lit "URL: " ++ toString (WorkExperience.companyUrl job) ++ lit "  " ++ nl
      else lit "") ++ nl
  ++ lit "**期間:** " ++ formatDate (WorkExperience.startDate job)
  ++ lit " ～ " ++ formatDate (WorkExperience.endDate job) ++ lit "  " ++ nl
  ++ lit "**職種:** " ++ orElse (WorkExperience.position job) (lit "") ++ lit "  " ++ nl
  ++ lit "**役職:** " ++ orElse (WorkExperience.title job) (lit "") ++ lit "  " ++ nl
  ++ nl
  ++ lit "#### 業務内容・実績" ++ nl
  ++ orElse (WorkExperience.achievements job) (lit "").

(** The interpolation of the details section,
    [${data.description || "仕事内容を入力してください"}]. *)
Definition detailsBody (data : FormData.t) : jsstring :=
  orElse (FormData.description data) placeholderPrompt.

(** The template literal of [formatTemplateContent] from its first line
    to the blank line that precedes the details header. *)
Definition documentHead (data : FormData.t) : jsstring :=
  let currentJob := FormData.currentJob data in
  let education := FormData.education data in
  lit "# 職務経歴書" ++ nl
  ++ nl
  ++ lit "## 基本情報" ++ nl
  ++ nl
  ++ lit "| 項目 | 内容 |" ++ nl
  ++ lit "|------|------|" ++ nl
  ++ lit "| 氏名 | " ++ orElse (FormData.name data) (lit "") ++ lit " |" ++ nl
  ++ lit "| 希望職種 | " ++ orElse (FormData.position data) (lit "") ++ lit " |" ++ nl
  ++ lit "| 業界 | " ++ orElse (FormData.industry data) (lit "") ++ lit " |" ++ nl
  ++ lit "| 経験年数 | " ++ orElse (FormData.experience data) (lit "") ++ lit "年 |" ++ nl
  ++ nl
  ++ lit "## 職務要約" ++ nl
  ++ nl
  ++ orElse (FormData.summary data) (lit "") ++ nl
  ++ nl
  ++ lit "## スキル" ++ nl
  ++ nl
  ++ orElse (FormData.skills data) (lit "") ++ nl
  ++ nl
  ++ lit "## 職務経歴" ++ nl
  ++ nl
  ++ lit "### 現職" ++ nl
  ++ nl
  ++ lit "**" ++ orElse (CurrentJob.companyName currentJob) (lit "") ++ lit "**  " ++ nl
  ++ (if truthy (CurrentJob.companyUrl currentJob)
      then lit "URL: " ++ toString (CurrentJob.companyUrl currentJob) ++ lit "  " ++ nl
      else lit "") ++ nl
  ++ lit "**期間:** " ++ formatDate (CurrentJob.startDate currentJob)
  ++ lit " ～ 現在  " ++ nl
  ++ lit "**職種:** " ++ orElse (CurrentJob.position currentJob) (lit "") ++ lit "  " ++ nl
  ++ lit "**役職:** " ++ orElse (CurrentJob.title currentJob) (lit "") ++ lit "  " ++ nl
  ++ nl
  ++ lit "#### 業務内容・実績" ++ nl
  ++ orElse (CurrentJob.achievements currentJob) (lit "") ++ nl
  ++ nl
  ++ join (nl ++ nl) (map previousJobEntry (FormData.previousJobs data)) ++ nl
  ++ nl
  ++ lit "## 学歴" ++ nl
  ++ nl
  ++ lit "### 最終学歴" ++ nl
  ++ lit "**" ++ orElse (Education.university education) (lit "")
  ++ lit "** " ++ orElse (Education.faculty education) (lit "")
  ++ lit " " ++ orElse (Education.department education) (lit "") ++ lit "  " ++ nl
  ++ formatDate (Education.graduationDate education) ++ lit "卒業" ++ nl
  ++ nl
  ++ otherEducationSection data ++ nl
  ++ nl.

Definition formatTemplateContent (data : FormData.t) : jsstring :=
  documentHead data
  ++ detailsHeader ++ nl
  ++ nl
  ++ detailsBody data.

(** * Event handlers

    A handler of a React component runs against the state the component
    committed at its last render, may replace that state, calls the
    callbacks it was given, and returns or throws.  [handler S E A] is the
    corresponding state, trace and exception monad; [E] is the type of the
    calls made to the outside.  No handler below reads a state variable
    after setting it, so the deferred nature of React state updates does
    not show.  Console logging is left out. *)

Section Handler.

Variables S E : Type.

Definition handler (A : Type) : Type := S -> completion A * S * list E.

Definition ret {A : Type} (a : A) : handler A :=
  fun s => (Normal a, s, []).

Definition bind {A B : Type} (m : handler A) (f : A -> handler B) : handler B :=
  fun s =>
    match m s with
    | (Normal a, s1, l1) => let '(r, s2, l2) := f a s1 in (r, s2, l1 ++ l2)
    | (Throw e, s1, l1) => (Throw e, s1, l1)
    end.

Definition get : handler S := fun s => (Normal s, s, []).

Definition put (s' : S) : handler unit := fun _ => (Normal tt, s', []).

Definition call (e : E) : handler unit := fun s => (Normal tt, s, [e]).

Definition lift {A : Type} (c : completion A) : handler A :=
  fun s => (c, s, []).

(** [try { m } catch (e) { h e }]. *)
Definition tryCatch {A : Type} (m : handler A) (h : jserror -> handler A)
  : handler A :=
  fun s =>
    match m s with
    | (Throw e, s1, l1) => let '(r, s2, l2) := h e s1 in (r, s2, l1 ++ l2)
    | r => r
    end.

(** [try { m } finally { f }]. *)
Definition tryFinally {A : Type} (m : handler A) (f : handler unit)
  : handler A :=
  fun s =>
    let '(r, s1, l1) := m s in
    match f s1 with
    | (Normal _, s2, l2) => (r, s2, l1 ++ l2)
    | (Throw e, s2, l2) => (Throw e, s2, l1 ++ l2)
    end.

End Handler.

Arguments ret {S E A} a.
Arguments bind {S E A B} m f.
Arguments get {S E}.
Arguments put {S E} s'.
Arguments call {S E} e.
Arguments lift {S E A} c.
Arguments tryCatch {S E A} m h.
Arguments tryFinally {S E A} m f.

Declare Scope handler_scope.
Delimit Scope handler_scope with handler.
Notation "x <- m ;; k" := (bind m (fun x => k))
  (at level 61, m at next level, right associativity) : handler_scope.
Notation "m ;; k" := (bind m (fun _ => k))
  (at level 61, right associativity) : handler_scope.

Local Open Scope handler_scope.

(** The result, the final state and the calls of a handler run. *)
Definition result {S E A : Type} (r : completion A * S * list E) : completion A :=
  fst (fst r).
Definition finalState {S E A : Type} (r : completion A * S * list E) : S :=
  snd (fst r).
Definition calls {S E A : Type} (r : completion A * S * list E) : list E :=
  snd r.

(** * The editor content bridge: [ResumeEditor] *)

Module ResumeEditor.

(** The two [useState] cells of the component. *)
Record state : Type := mkState {
  editorContent : jsstring;
  internalIsEditing : bool
}.

(** The callbacks of the owner that the handlers invoke. *)
Inductive callback : Type :=
| onEdit (description : jsstring)
| onFinishEditing.

Definition setEditorContent (content : jsstring) : handler state callback unit :=
  st <- get ;; put (mkState content (internalIsEditing st)).

(** [handleFinishEdit] is the same in the two components. *)
Definition handleFinishEdit : handler state callback unit :=
  st <- get ;;
  parsedContent <- lift (parseTemplateContent (editorContent st)) ;;
  call (onEdit parsedContent) ;;
  call onFinishEditing.

(** The component built on [HtmlRichEditor]. *)
Module Html.

Definition handleEditorChange (content : jsstring) : handler state callback unit :=
  if negb (nonEmpty content) then ret tt
  else
    st <- get ;;
    if JS.eqb content (editorContent st) then ret tt
    else
      setEditorContent content ;;
      if internalIsEditing st
      then tryCatch
             (parsedContent <- lift (parseTemplateContent content) ;;
              call (onEdit parsedContent))
             (fun _ => ret tt)
      else ret tt.

End Html.

(** The component built on [MarkdownEditor]
    ([src/components/ResumeEditor.tsx]). *)
Module Markdown.

Definition handleEditorChange (content : jsstring) : handler state callback unit :=
  st <- get ;;
  setEditorContent content ;;
  if internalIsEditing st
  then parsedContent <- lift (parseTemplateContent content) ;;
       call (onEdit parsedContent)
  else ret tt.

End Markdown.

(** Editing is active and the editor shows "x". *)
Definition editingX : state := mkState (lit "x") true.

End ResumeEditor.

(** * The edit-mode controller: [useEditModeManager] *)

Module EditModeManager.

(** The ref cell of the hook. *)
Record state : Type := mkState {
  pendingSaveRef : bool
}.

(** [setIsEditingAfter d b] stands for
    [setTimeout(() => setIsEditing(b), d)]. *)
Inductive effect : Type :=
| setIsEditing (isEditing : bool)
| setIsEditingAfter (delayMs : nat) (isEditing : bool)
| toast (title description : jsstring).

Definition handleDirectEdit : handler state effect unit :=
  call (setIsEditingAfter 0 true) ;;
  put (mkState true) ;;
  call (toast (lit "編集モード切り替えました")
              (lit "職務経歴書を直接編集できます。")).

Definition handleFinishEditing : handler state effect unit :=
  call (setIsEditing false).

End EditModeManager.

(** What the owner observes when the "finish editing" button is
    pressed, with the [onFinishEditing] property of [ResumeEditor] bound
    to [handleFinishEditing] of the controller: the descriptions handed to
    [onEdit] and the effects of the controller, in the order they
    happen. *)
Definition ownerStep : Type := (jsstring + EditModeManager.effect)%type.

Definition dispatch (m : EditModeManager.state) (c : ResumeEditor.callback)
  : list ownerStep :=
  match c with
  | ResumeEditor.onEdit d => [inl d]
  | ResumeEditor.onFinishEditing =>
    map inr (calls (EditModeManager.handleFinishEditing m))
  end.

Definition finishEditingTrace (m : EditModeManager.state)
  (st : ResumeEditor.state) : list ownerStep :=
  flat_map (dispatch m) (calls (ResumeEditor.handleFinishEdit st)).

(** * The direct-edit entry path: [useDirectEditMode] *)

Module DirectEditMode.

(** ** The persisted row *)

(** Modelled from the spec: the generated types of the [resumes] table
    are not among the sources.  [Row] carries the columns the hook reads.
    A JSON column or property is absent, [null], a primitive (string,
    number or boolean) or an object; the string properties inside the
    JSON objects are strings, [null] or absent. *)
Inductive json (A : Type) : Type :=
| JAbsent
| JNull
| JPrimitive (isTruthy : bool)
| JObject (a : A).

Arguments JAbsent {A}.
Arguments JNull {A}.
Arguments JPrimitive {A} isTruthy.
Arguments JObject {A} a.

Record EducationJson : Type := mkEducationJson {
  j_university : jsval;
  j_faculty : jsval;
  j_department : jsval;
  j_graduationDate : jsval
}.

Record CurrentJobJson : Type := mkCurrentJobJson {
  j_companyName : jsval;
  j_companyUrl : jsval;
  j_startDate : jsval;
  j_position : jsval;
  j_title : jsval;
  j_achievements : jsval;
  j_education : json EducationJson
}.

Record PreviousJobJson : Type := mkPreviousJobJson {
  p_companyName : jsval;
  p_companyUrl : jsval;
  p_startDate : jsval;
  p_endDate : jsval;
  p_position : jsval;
  p_title : jsval;
  p_achievements : jsval;
  p_isSameAsCurrentCompany : option bool
}.

Record Row : Type := mkRow {
  id : jsval;
  name : jsval;
  industry : jsval;
  position : jsval;
  experience : jsval;
  skills : jsval;
  summary : jsval;
  description : jsval;
  current_job : json CurrentJobJson;
  (** [None] when the column is not an array; an element is [None] when
      it is [null]. *)
  previous_jobs : option (list (option PreviousJobJson));
  created_at : jsval;
  updated_at : jsval;
  user_id : jsval
}.

(** The [{ data, error }] pair the query resolves to. *)
Record Response : Type := mkResponse {
  data : option Row;
  error : bool
}.

(** ** The hook *)

Inductive Mode : Type :=
| edit
| view.

Record props : Type := mkProps {
  mode : Mode;
  (** The [id] route parameter. *)
  param_id : jsval
}.

Record state : Type := mkState {
  isLoading : bool;
  hasAttemptedFetch : bool
}.

Inductive effect : Type :=
| setStep (step : nat)
| setIsEditingAfter (delayMs : nat) (isEditing : bool)
| toast (title description : jsstring) (destructive : bool)
| navigate (path : jsstring)
| setFormData (formData : FormData.t).

Definition isDirectEditMode (p : props) : bool :=
  match mode p with edit => true | view => false end.

Definition setIsLoading (b : bool) : handler state effect unit :=
  st <- get ;; put (mkState b (hasAttemptedFetch st)).

Definition setHasAttemptedFetch (b : bool) : handler state effect unit :=
  st <- get ;; put (mkState (isLoading st) b).

(** The effect run when the component mounts. *)
Definition onMount (p : props) : handler state effect unit :=
  if isDirectEditMode p && truthy (param_id p)
  then call (setStep 2) ;; call (setIsEditingAfter 100 true)
  else ret tt.

(** [x || ""] stored into a property of the record. *)
Definition orEmpty (v : jsval) : jsval := Str (orElse v (lit "")).

(** [data.current_job && typeof data.current_job === 'object'
     ? (data.current_job as any).p || "" : ""]. *)
Definition ofCurrentJob (c : json CurrentJobJson) (p : CurrentJobJson -> jsval)
  : jsval :=
  match c with
  | JObject o => orEmpty (p o)
  | _ => Str (lit "")
  end.

(** The same with the guards on the nested [education] object. *)
Definition ofEducation (c : json CurrentJobJson) (p : EducationJson -> jsval)
  : jsval :=
  match c with
  | JObject o =>
    match j_education o with
    | JObject e => orEmpty (p e)
    | _ => Str (lit "")
    end
  | _ => Str (lit "")
  end.

Definition ofPreviousJob (job : option PreviousJobJson) : WorkExperience.t :=
  let get (p : PreviousJobJson -> jsval) : jsval :=
    match job with
    | Some j => orEmpty (p j)
    | None => Str (lit "")
    end in
  WorkExperience.mk
    (get p_companyName) (get p_companyUrl) (get p_startDate) (get p_endDate)
    (get p_position) (get p_title) (get p_achievements)
    (match job with
     | Some j =>
       match p_isSameAsCurrentCompany j with Some b => b | None => false end
     | None => false
     end).

(** The object literal [resumeData] built from the fetched row. *)
Definition resumeData (row : Row) : FormData.t :=
  FormData.mk
    (id row)
    (orEmpty (name row))
    (orEmpty (industry row))
    (orEmpty (position row))
    (orEmpty (experience row))
    (orEmpty (skills row))
    (orEmpty (summary row))
    (orEmpty (description row))
    (Education.mk
       (ofEducation (current_job row) j_university)
       (ofEducation (current_job row) j_faculty)
       (ofEducation (current_job row) j_department)
       (ofEducation (current_job row) j_graduationDate))
    (CurrentJob.mk
       (ofCurrentJob (current_job row) j_companyName)
       (ofCurrentJob (current_job row) j_companyUrl)
       (ofCurrentJob (current_job row) j_startDate)
       (ofCurrentJob (current_job row) j_position)
       (ofCurrentJob (current_job row) j_title)
       (ofCurrentJob (current_job row) j_achievements))
    (match previous_jobs row with
     | Some jobs => map ofPreviousJob jobs
     | None => []
     end)
    (Some [])
    (created_at row)
    (updated_at row)
    (user_id row).

Definition fetchFailedToast : effect :=
  toast (lit "エラー") (lit "職務経歴書の読み込みに失敗しました") true.

Definition notFoundToast : effect :=
  toast (lit "エラー") (lit "職務経歴書が見つかりませんでした") true.

Definition loadedToast : effect :=
  toast (lit "読み込み完了") (lit "職務経歴書の読み込みが完了しました") false.

Definition exceptionToast : effect :=
  toast (lit "エラー") (lit "職務経歴書の読み込み中にエラーが発生しました") true.

(** [fetchResumeData(user)]; [hasUser] tells whether [user] is non-null
    and [response] is the outcome of awaiting the query, a rejected
    promise being a [Throw]. *)
Definition fetchResumeData (p : props) (hasUser : bool)
  (response : completion Response) : handler state effect unit :=
  st <- get ;;
  if hasAttemptedFetch st || isLoading st then ret tt
  else if negb (isDirectEditMode p) || negb (truthy (param_id p)) then ret tt
  else if negb hasUser && isDirectEditMode p
  then call (toast (lit "ログインが必要です")
                   (lit "保存するにはログインしてください。プレビューのみ可能です。")
                   false)
  else
    tryFinally
      (tryCatch
         (setIsLoading true ;;
          r <- lift response ;;
          setHasAttemptedFetch true ;;
          if error r
          then call fetchFailedToast ;; call (navigate (lit "/dashboard"))
          else
            match data r with
            | None => call notFoundToast ;; call (navigate (lit "/dashboard"))
            | Some row =>
              call (setFormData (resumeData row)) ;;
              (if isDirectEditMode p
               then call (setIsEditingAfter 0 true)
               else ret tt) ;;
              call loadedToast
            end)
         (fun _ =>
            call exceptionToast ;; call (navigate (lit "/dashboard"))))
      (setIsLoading false).

(** The structured record held by the owner after a sequence of
    effects: only [setFormData] replaces it. *)
Fixpoint recordAfter (l : list effect) (formData : FormData.t) : FormData.t :=
  match l with
  | [] => formData
  | setFormData d :: l' => recordAfter l' d
  | _ :: l' => recordAfter l' formData
  end.

(** The fetch was made and failed: the promise was rejected, the
    response carries an error, or it carries no row. *)
Definition fetchFailed (response : completion Response) : bool :=
  match response with
  | Throw _ => true
  | Normal r => error r || match data r with None => true | Some _ => false end
  end.

(** The guards that precede the query let the call through. *)
Definition fetches (p : props) (hasUser : bool) (st : state) : bool :=
  negb (hasAttemptedFetch st) && negb (isLoading st)
  && isDirectEditMode p && truthy (param_id p) && hasUser.

Definition isErrorToast (e : effect) : bool :=
  match e with
  | toast _ _ true => true
  | _ => false
  end.

Definition failedResponse : completion Response :=
  Normal (mkResponse None true).

Definition editProps : props := mkProps edit (Str (lit "42")).

Definition sampleRow : Row :=
  mkRow (Str (lit "42")) (Str (lit "山田太郎")) Null (Str (lit "エンジニア"))
    (Str (lit "5")) Undefined (Str (lit "要約")) (Str (lit "開発"))
    (JObject (mkCurrentJobJson (Str (lit "A社")) Null (Str (lit "2020-04"))
                Undefined Undefined Undefined
                (JObject (mkEducationJson (Str (lit "東京大学")) Null
                            Undefined (Str (lit "2015-03"))))))
    (Some [None; Some (mkPreviousJobJson (Str (lit "B社")) Null Null Null
                         Null Null Null None)])
    Undefined Undefined Undefined.

End DirectEditMode.

(** * Where the code units of a document come from

    The formatter copies the texts of the record into fixed template
    text and escapes nothing.  Every code unit of a document therefore
    comes from the template or from a property of the record; which
    properties hold a given code unit is what decides whether a document
    can show a header the formatter did not emit. *)

Definition mem (c : N) (s : jsstring) : bool := existsb (N.eqb c) s.

Definition inclb (s alphabet : jsstring) : bool :=
  forallb (fun c => mem c alphabet) s.

(** No text among [vs] holds the code unit [c]. *)
Definition avoids (c : N) (vs : list jsval) : bool :=
  forallb (fun v => negb (mem c (strOf v))) vs.

Definition fromTexts (c : N) (vs : list jsval) : Prop :=
  exists v, In v vs /\ In c (strOf v).

(** The additional-education list has at least one entry. *)
Definition hasAdditionalEducation (data : FormData.t) : bool :=
  match FormData.additionalEducation data with
  | [] => false
  | _ :: _ => true
  end.

(** The code units of the fixed text of [documentHead], the header of the
    additional-education section apart. *)
Definition templateAlphabet : jsstring :=
  lit "# |-*:/URL～・" ++ nl
  ++ lit "職務経歴書基本情報項目内容氏名希望種業界験年数要約スキル"
  ++ lit "現期間在役実績学最終卒月部科専攻".

(** The code units of the fixed text of a whole document, the header of
    the additional-education section apart. *)
Definition documentAlphabet : jsstring :=
  templateAlphabet ++ detailsMarker ++ placeholderPrompt.

(** ** Defaulted records

    The record in which every absent property is replaced by the empty
    string and an absent additional-education list by the empty list. *)

Definition orBlank (v : jsval) : jsval := Str (strOf v).

Definition defaultedEducation (e : Education.t) : Education.t :=
  Education.mk (orBlank (Education.university e))
    (orBlank (Education.faculty e)) (orBlank (Education.department e))
    (orBlank (Education.graduationDate e)).

Definition defaultedCurrentJob (j : CurrentJob.t) : CurrentJob.t :=
  CurrentJob.mk (orBlank (CurrentJob.companyName j))
    (orBlank (CurrentJob.companyUrl j)) (orBlank (CurrentJob.startDate j))
    (orBlank (CurrentJob.position j)) (orBlank (CurrentJob.title j))
    (orBlank (CurrentJob.achievements j)).

Definition defaultedJob (j : WorkExperience.t) : WorkExperience.t :=
  WorkExperience.mk (orBlank (WorkExperience.companyName j))
    (orBlank (WorkExperience.companyUrl j))
    (orBlank (WorkExperience.startDate j))
    (orBlank (WorkExperience.endDate j))
    (orBlank (WorkExperience.position j)) (orBlank (WorkExperience.title j))
    (orBlank (WorkExperience.achievements j))
    (WorkExperience.isSameAsCurrentCompany j).

Definition defaultedHistory (e : EducationHistory.t) : EducationHistory.t :=
  EducationHistory.mk (orBlank (EducationHistory.schoolName e))
    (orBlank (EducationHistory.graduationDate e))
    (orBlank (EducationHistory.department e))
    (orBlank (EducationHistory.faculty e))
    (orBlank (EducationHistory.major e)).

Definition defaulted (data : FormData.t) : FormData.t :=
  FormData.mk (FormData.id data)
    (orBlank (FormData.name data)) (orBlank (FormData.industry data))
    (orBlank (FormData.position data)) (orBlank (FormData.experience data))
    (orBlank (FormData.skills data)) (orBlank (FormData.summary data))
    (orBlank (FormData.description data))
    (defaultedEducation (FormData.education data))
    (defaultedCurrentJob (FormData.currentJob data))
    (map defaultedJob (FormData.previousJobs data))
    (Some (map defaultedHistory (FormData.additionalEducation data)))
    (FormData.created_at data) (FormData.updated_at data)
    (FormData.user_id data).

(** * Sample records *)

Definition blank : jsval := Str (lit "").

(** A record with every property absent. *)
Definition missingRecord : FormData.t :=
  FormData.mk Undefined Undefined Undefined Undefined Undefined Undefined
    Undefined Undefined
    (Education.mk Undefined Undefined Undefined Undefined)
    (CurrentJob.mk Undefined Null Undefined Undefined Undefined Undefined)
    [] None Undefined Undefined Undefined.

(** A filled-in record with the given summary, description and
    additional-education list. *)
Definition sampleRecord (summary description : jsval)
  (histories : option (list EducationHistory.t)) : FormData.t :=
  FormData.mk
    Undefined
    (Str (lit "山田太郎")) (Str (lit "IT")) (Str (lit "エンジニア"))
    (Str (lit "5")) (Str (lit "TypeScript")) summary description
    (Education.mk (Str (lit "東京大学")) blank (Str (lit "工学部"))
       (Str (lit "2015-03")))
    (CurrentJob.mk (Str (lit "A社")) blank (Str (lit "2020-04"))
       (Str (lit "開発")) blank (Str (lit "設計")))
    [WorkExperience.mk (Str (lit "B社")) (Str (lit "https://b.example"))
       (Str (lit "2015-04")) (Str (lit "2020-03")) blank blank blank false]
    histories
    Undefined Undefined Undefined.

Definition sampleHistory : EducationHistory.t :=
  EducationHistory.mk (Str (lit "C高校")) (Str (lit "2011-03")) blank blank
    Undefined.

(** The summary spells the details header. *)
Definition injectedRecord : FormData.t :=
  sampleRecord (Str detailsHeader) (Str (lit "d")) None.

Definition roundtripRecord : FormData.t :=
  sampleRecord (Str (lit "要約")) (Str (lit " 開発を担当 ")) None.

(** The summary spells the header of the additional-education section,
    and the list is empty. *)
Definition headerInSummaryRecord : FormData.t :=
  sampleRecord (Str otherEducationHeader) (Str (lit "d")) (Some []).

(** The description is the text of the placeholder prompt. *)
Definition placeholderRecord : FormData.t :=
  sampleRecord blank (Str placeholderPrompt) None.

Definition historyRecord : FormData.t :=
  sampleRecord blank blank (Some [sampleHistory]).

(** Code units that occur in the template only inside one header. *)
Definition kanjiShou : N := 35443.  (* 詳, of the details header *)
Definition kanjiTa : N := 20182.    (* 他, of the additional-education header *)
Definition letterU : N := 117.      (* u *)
Definition hyphen : N := 45.        (* - *)

(** * Further parts of the components *)

From Stdlib Require Import ZArith.

(** ** The editor surface built on tiptap: [HtmlRichEditor]

    The properties the component reads, the options it hands to
    [useEditor], and its resize handlers.  A property left out by the
    caller is [None] (or an absent [jsval]) and takes the default of the
    parameter list.  Pixel values are whole numbers. *)

Module HtmlRichEditor.

Record props : Type := mkProps {
  value : jsval;
  autoFocus : option bool;
  disabled : option bool;
  isPreview : option bool;
  initialContent : jsval;
  readOnly : option bool
}.

Record editorOptions : Type := mkEditorOptions {
  content : jsstring;
  autofocus : bool;
  editable : bool
}.

(** A parameter with default [false]. *)
Definition orFalse (b : option bool) : bool :=
  match b with Some x => x | None => false end.

(** [value || initialContent || '']. *)
Definition actualValue (p : props) : jsstring :=
  orElse (value p) (orElse (initialContent p) (lit "")).

(** [disabled || readOnly || false]. *)
Definition actualDisabled (p : props) : bool :=
  orFalse (disabled p) || orFalse (readOnly p) || false.

Definition notLoadedContent : jsstring :=
  lit "<p>コンテンツが読み込まれていません</p>".

(** The [content], [autofocus] and [editable] options of [useEditor]. *)
Definition useEditorOptions (p : props) : editorOptions :=
  mkEditorOptions
    (if nonEmpty (actualValue p) then actualValue p else notLoadedContent)
    (orFalse (autoFocus p) && negb (actualDisabled p))
    (negb (actualDisabled p) && negb (orFalse (isPreview p))).

(** *** Resizing *)

Record state : Type := mkState {
  isResizing : bool;
  editorHeight : option Z;
  startYRef : option Z;
  startHeightRef : option Z
}.

Inductive effect : Type :=
| preventDefault.

(** [n || d] on a number that may be [null]: zero is falsy. *)
Definition numberOr (n : option Z) (d : Z) : Z :=
  match n with
  | Some x => if Z.eqb x 0 then d else x
  | None => d
  end.

Definition setIsResizing (b : bool) : handler state effect unit :=
  st <- get ;;
  put (mkState b (editorHeight st) (startYRef st) (startHeightRef st)).

Definition setEditorHeight (h : Z) : handler state effect unit :=
  st <- get ;;
  put (mkState (isResizing st) (Some h) (startYRef st) (startHeightRef st)).

(** [handleResizeKeyDown(e)]; [key] is [e.key] and [measured] the
    [clientHeight] of the [.ProseMirror] element, if there is one. *)
Definition handleResizeKeyDown (key : jsstring) (measured : option Z)
  : handler state effect unit :=
  st <- get ;;
  (if (JS.eqb key (lit " ") || JS.eqb key (lit "Enter"))
      && negb (isResizing st)
   then call preventDefault ;; setIsResizing true
   else ret tt) ;;
  (if JS.eqb key (lit "Escape") && isResizing st
   then call preventDefault ;; setIsResizing false
   else ret tt) ;;
  (if isResizing st
      && (JS.eqb key (lit "ArrowUp") || JS.eqb key (lit "ArrowDown"))
   then
     call preventDefault ;;
     let currentHeight :=
       numberOr (editorHeight st) (numberOr measured 200) in
     let newHeight :=
       if JS.eqb key (lit "ArrowUp")
       then Z.max (currentHeight - 20) 100
       else (currentHeight + 20)%Z in
     setEditorHeight newHeight
   else ret tt).

(** [startResize(e)] with [clientY] the pointer position. *)
Definition startResize (clientY : Z) (measured : option Z)
  : handler state effect unit :=
  call preventDefault ;;
  setIsResizing true ;;
  st <- get ;;
  put (mkState (isResizing st) (editorHeight st) (Some clientY)
         (match measured with
          | Some h => Some h
          | None => startHeightRef st
          end)).

(** [handleResize(e)]; the handler closes over [isResizing]. *)
Definition handleResize (clientY : Z) : handler state effect unit :=
  st <- get ;;
  if negb (isResizing st) then ret tt
  else
    match startYRef st, startHeightRef st with
    | Some startY, Some startHeight =>
      let deltaY := (clientY - startY)%Z in
      let newHeight := Z.max 100 (startHeight + deltaY) in
      setEditorHeight newHeight
    | _, _ => ret tt
    end.

Definition stopResize : handler state effect unit :=
  st <- get ;; put (mkState false (editorHeight st) None None).

(** The events the resize handle receives. *)
Inductive resizeEvent : Type :=
| keyDown (key : jsstring) (measured : option Z)
| pointerDown (clientY : Z) (measured : option Z)
| pointerMove (clientY : Z)
| pointerUp.

Definition onResizeEvent (e : resizeEvent) : handler state effect unit :=
  match e with
  | keyDown key measured => handleResizeKeyDown key measured
  | pointerDown clientY measured => startResize clientY measured
  | pointerMove clientY => handleResize clientY
  | pointerUp => stopResize
  end.

Fixpoint onResizeEvents (l : list resizeEvent) : handler state effect unit :=
  match l with
  | [] => ret tt
  | e :: l' => onResizeEvent e ;; onResizeEvents l'
  end.

(** The element measured at an event, when it is measured, is at least
    [m] pixels high. *)
Definition measuredAtLeast (m : Z) (e : resizeEvent) : bool :=
  match e with
  | keyDown _ (Some h) => Z.eqb h 0 || Z.leb m h
  | _ => true
  end.

(** The height is unset or at least 100 pixels. *)
Definition heightOk (st : state) : bool :=
  match editorHeight st with
  | Some h => Z.leb 100 h
  | None => true
  end.

End HtmlRichEditor.

(** ** The editor surface [MarkdownEditor] *)

Module MarkdownEditor.

Inductive EditorMode : Type :=
| rich
| markdown.

Record props : Type := mkProps {
  content : jsstring;
  readOnly : option bool;
  autoFocus : option bool;
  initialMode : option EditorMode
}.

Definition modeOrRich (m : option EditorMode) : EditorMode :=
  match m with Some x => x | None => rich end.

Definition isRich (m : EditorMode) : bool :=
  match m with rich => true | markdown => false end.

(** The [content], [autofocus] and [editable] options of [useEditor]. *)
Definition useEditorOptions (p : props) : HtmlRichEditor.editorOptions :=
  HtmlRichEditor.mkEditorOptions
    (content p)
    (HtmlRichEditor.orFalse (autoFocus p) && isRich (modeOrRich (initialMode p)))
    (negb (HtmlRichEditor.orFalse (readOnly p))).

(** *** Keyboard shortcuts *)

Record KeyboardEvent : Type := mkKeyboardEvent {
  altKey : bool;
  ctrlKey : bool;
  shiftKey : bool;
  key : jsstring
}.

Inductive Template : Type :=
| basicTemplate
| projectTemplate
| skillsTemplate.

Inductive command : Type :=
| preventDefault
| addColumnAfter
| addColumnBefore
| addRowBefore
| addRowAfter
| handleTemplateSelect (t : Template)
| toggleFullscreen.

(** [handleKeyboardShortcuts(event)]; [hasEditor] tells whether the
    tiptap editor exists and [tableActive] is [editor.isActive('table')].
    The component keeps no state of its own here. *)
Definition handleKeyboardShortcuts (hasEditor : bool) (editMode : EditorMode)
  (tableActive : bool) (event : KeyboardEvent) : handler unit command unit :=
  if negb hasEditor then ret tt
  else
    (if isRich editMode && tableActive
     then
       (if altKey event && JS.eqb (key event) (lit "ArrowRight")
        then call preventDefault ;; call addColumnAfter else ret tt) ;;
       (if altKey event && JS.eqb (key event) (lit "ArrowLeft")
        then call preventDefault ;; call addColumnBefore else ret tt) ;;
       (if altKey event && JS.eqb (key event) (lit "ArrowUp")
        then call preventDefault ;; call addRowBefore else ret tt) ;;
       (if altKey event && JS.eqb (key event) (lit "ArrowDown")
        then call preventDefault ;; call addRowAfter else ret tt)
     else ret tt) ;;
    (if ctrlKey event && shiftKey event && JS.eqb (key event) (lit "T")
     then call preventDefault else ret tt) ;;
    (if ctrlKey event && shiftKey event && JS.eqb (key event) (lit "1")
     then call preventDefault ;; call (handleTemplateSelect basicTemplate)
     else ret tt) ;;
    (if ctrlKey event && shiftKey event && JS.eqb (key event) (lit "2")
     then call preventDefault ;; call (handleTemplateSelect projectTemplate)
     else ret tt) ;;
    (if ctrlKey event && shiftKey event && JS.eqb (key event) (lit "3")
     then call preventDefault ;; call (handleTemplateSelect skillsTemplate)
     else ret tt) ;;
    (if ctrlKey event && JS.eqb (key event) (lit "f")
     then call preventDefault ;; call toggleFullscreen else ret tt) ;;
    (if altKey event && JS.eqb (key event) (lit "e")
     then call preventDefault else ret tt).

Definition isPreventDefault (c : command) : bool :=
  match c with preventDefault => true | _ => false end.

Definition isTableCommand (c : command) : bool :=
  match c with
  | addColumnAfter | addColumnBefore | addRowBefore | addRowAfter => true
  | _ => false
  end.

End MarkdownEditor.

(** ** The effects and the rendering of [ResumeEditor] *)

Module ResumeEditorView.

Import ResumeEditor.

(** ToString of a boolean, as in [`editor-${internalIsEditing}`]. *)
Definition boolToString (b : bool) : jsstring :=
  if b then lit "true" else lit "false".

(** The effect on [isEditing]: [setInternalIsEditing(isEditing)]. *)
Definition syncIsEditing (isEditing : bool) : handler state callback unit :=
  st <- get ;; put (mkState (editorContent st) isEditing).

(** The component built on [HtmlRichEditor]. *)
Module Html.

(** The effect on [formData] and [isEditing]. *)
Definition syncContent (formData : option FormData.t)
  : handler state callback unit :=
  match formData with
  | Some data =>
    let formattedContent := formatTemplateContent data in
    if nonEmpty formattedContent
       && negb (JS.eqb (trim formattedContent) (lit ""))
    then setEditorContent formattedContent
    else ret tt
  | None => ret tt
  end.

(** The effect run once when the component mounts. *)
Definition mountContent (formData : option FormData.t)
  : handler state callback unit :=
  match formData with
  | Some data => setEditorContent (formatTemplateContent data)
  | None => ret tt
  end.

(** [formData?.id || "new"]. *)
Definition idOrNew (formData : option FormData.t) : jsstring :=
  match formData with
  | Some data => orElse (FormData.id data) (lit "new")
  | None => lit "new"
  end.

(** The [key] of the editor element. *)
Definition editorKey (formData : option FormData.t) (st : state) : jsstring :=
  lit "editor-" ++ boolToString (internalIsEditing st) ++ lit "-"
  ++ idOrNew formData.

(** The properties handed to [HtmlRichEditor]; [None] when the
    "loading" placeholder is rendered instead. *)
Definition render (st : state) : option HtmlRichEditor.props :=
  if nonEmpty (editorContent st)
  then Some (HtmlRichEditor.mkProps
               (Str (editorContent st))
               None
               (Some (negb (internalIsEditing st)))
               None
               (Str (editorContent st))
               (Some (negb (internalIsEditing st))))
  else None.

End Html.

(** The component built on [MarkdownEditor]. *)
Module Markdown.

Definition syncContent (formData : FormData.t) : handler state callback unit :=
  setEditorContent (formatTemplateContent formData).

Definition editorKey (st : state) : jsstring :=
  lit "editor-" ++ boolToString (internalIsEditing st).

Definition render (st : state) : MarkdownEditor.props :=
  MarkdownEditor.mkProps (editorContent st)
    (Some (negb (internalIsEditing st))) None (Some MarkdownEditor.rich).

End Markdown.

End ResumeEditorView.

(** ** Sequences of calls of the handlers of [useEditModeManager] *)

Module EditModeSession.

Import EditModeManager.

Inductive action : Type :=
| directEdit
| finishEditing.

Definition perform (a : action) : handler state effect unit :=
  match a with
  | directEdit => handleDirectEdit
  | finishEditing => handleFinishEditing
  end.

Fixpoint performAll (l : list action) : handler state effect unit :=
  match l with
  | [] => ret tt
  | a :: l' => perform a ;; performAll l'
  end.

Definition isDirectEdit (a : action) : bool :=
  match a with directEdit => true | finishEditing => false end.

End EditModeSession.

(** ** The guards of [fetchResumeData] *)

Module DirectEditGuards.

Import DirectEditMode.

Definition loginToast : effect :=
  toast (lit "ログインが必要です")
        (lit "保存するにはログインしてください。プレビューのみ可能です。")
        false.

(** The record of the owner is replaced by some effect of the list. *)
Definition populates (l : list effect) : bool :=
  existsb (fun e => match e with setFormData _ => true | _ => false end) l.

Definition navigates (l : list effect) : bool :=
  existsb (fun e => match e with navigate _ => true | _ => false end) l.

End DirectEditGuards.

(** * The formatter on values that need not conform to [FormData]

    [formatTemplateContent] dereferences [data], [data.currentJob],
    [data.education], [data.previousJobs] and the elements of the two
    arrays without a guard; dereferencing [undefined] or [null] throws a
    [TypeError].  A value handed to the function is modelled with each of
    those objects possibly absent; [data.educationHistories] is read
    behind a truthiness test and may be absent. *)

Module Untyped.

Record t : Type := mk {
  name : jsval;
  industry : jsval;
  position : jsval;
  experience : jsval;
  skills : jsval;
  summary : jsval;
  description : jsval;
  education : option Education.t;
  currentJob : option CurrentJob.t;
  previousJobs : option (list (option WorkExperience.t));
  educationHistories : option (list (option EducationHistory.t))
}.

Definition bindC {A B : Type} (c : completion A) (k : A -> completion B)
  : completion B :=
  match c with
  | Normal a => k a
  | Throw e => Throw e
  end.

(** A property access or method call on [o]. *)
Definition deref {A : Type} (o : option A) : completion A :=
  match o with
  | Some a => Normal a
  | None => Throw TypeError
  end.

(** The callback of [map] dereferences every element. *)
Fixpoint derefAll {A : Type} (l : list (option A)) : completion (list A) :=
  match l with
  | [] => Normal []
  | o :: l' =>
    bindC (deref o) (fun a =>
    bindC (derefAll l') (fun rest => Normal (a :: rest)))
  end.

(** [formatTemplateContent(data)]: the local constant
    [educationHistories] first, then the template from top to bottom;
    once every dereference has succeeded the result is the document of
    the record read. *)
Definition formatTemplateContent (data : option t) : completion jsstring :=
  bindC (deref data) (fun d =>
  bindC (match educationHistories d with
         | Some l => bindC (derefAll l) (fun es => Normal (Some es))
         | None => Normal None
         end) (fun histories =>
  bindC (deref (currentJob d)) (fun job =>
  bindC (bindC (deref (previousJobs d)) derefAll) (fun jobs =>
  bindC (deref (education d)) (fun edu =>
  Normal (formatTemplateContent
            (FormData.mk Undefined (name d) (industry d) (position d)
               (experience d) (skills d) (summary d) (description d)
               edu job jobs histories Undefined Undefined Undefined))))))).






End Untyped.

(** A row whose summary spells an additional-education section. *)
Definition spelledSection : jsstring :=
  otherEducationHeader ++ nl ++ nl ++ educationHistoryEntry sampleHistory.

Definition spelledRow : DirectEditMode.Row :=
  DirectEditMode.mkRow (Str (lit "42")) (Str (lit "山田太郎")) Null Null Null
    Null (Str spelledSection) (Str (lit "開発"))
    DirectEditMode.JNull None Undefined Undefined Undefined.

(** The first code unit of a string, if any, is not whitespace. *)
Definition headOk (s : jsstring) : Prop :=
  match s with
  | [] => True
  | c :: _ => isWhiteSpace c = false
  end.

(** * Properties of the string operations *)

Section StringFacts.

Local Open Scope N_scope.

Lemma stripPrefix_app (p s : jsstring) : stripPrefix p (p ++ s) = Some s.
Proof.
  induction p as [|a p IH]; simpl; [reflexivity|].
  now rewrite N.eqb_refl.
Qed.

Lemma stripPrefix_Some (p s r : jsstring) :
  stripPrefix p s = Some r -> s = p ++ r.
Proof.
  revert s; induction p as [|a p IH]; intros s H; simpl in *.
  - now inversion H.
  - destruct s as [|b s]; [discriminate|].
    destruct (N.eqb_spec a b) as [->|]; [|discriminate].
    now rewrite (IH _ H).
Qed.

Lemma indexOf_Some (p s : jsstring) (n : nat) :
  indexOf p s = Some n ->
  exists r, skipn n s = p ++ r /\ (n <= length s)%nat.
Proof.
  revert n; induction s as [|c s IH]; intros n; simpl.
  - destruct (stripPrefix p []) as [l|] eqn:E; [|discriminate].
    intros [= <-]. exists l. split; [now apply stripPrefix_Some|lia].
  - destruct (stripPrefix p (c :: s)) as [l|] eqn:E.
    + intros [= <-]. exists l. split; [now apply stripPrefix_Some|lia].
    + destruct (indexOf p s) as [m|]; [|discriminate].
      intros [= <-]. destruct (IH m eq_refl) as (r & Hr & Hm).
      exists r. simpl. split; [assumption|lia].
Qed.

Lemma indexOf_prefix (p s r : jsstring) :
  stripPrefix p s = Some r -> indexOf p s = Some 0%nat.
Proof.
  intros E. destruct s; simpl; now rewrite E.
Qed.

Lemma indexOf_None (p s a b : jsstring) :
  indexOf p s = None -> s <> a ++ p ++ b.
Proof.
  revert s; induction a as [|x a IH]; intros s H ->; simpl in H.
  - now rewrite (indexOf_prefix _ _ _ (stripPrefix_app p b)) in H.
  - destruct (stripPrefix p (x :: a ++ p ++ b)); [discriminate|].
    destruct (indexOf p (a ++ p ++ b)) eqn:E; [discriminate|].
    now apply (IH _ E).
Qed.

Lemma includes_true (p s : jsstring) :
  includes p s = true -> exists a b, s = a ++ p ++ b.
Proof.
  unfold includes. destruct (indexOf p s) as [n|] eqn:E; [|discriminate].
  intros _. destruct (indexOf_Some _ _ _ E) as (r & Hr & _).
  exists (firstn n s), r. now rewrite <- Hr, firstn_skipn.
Qed.

Lemma includes_false (p s : jsstring) :
  includes p s = false -> forall a b, s <> a ++ p ++ b.
Proof.
  unfold includes. destruct (indexOf p s) eqn:E; [discriminate|].
  intros _ a b. now apply indexOf_None.
Qed.

Lemma includes_app (p a b : jsstring) : includes p (a ++ p ++ b) = true.
Proof.
  destruct (includes p (a ++ p ++ b)) eqn:E; [reflexivity|].
  now destruct (includes_false _ _ E a b).
Qed.

(** A string that contains [p] contains every code unit of [p]. *)
Lemma includes_In (p s : jsstring) (c : N) :
  includes p s = true -> In c p -> In c s.
Proof.
  intros H Hc. destruct (includes_true _ _ H) as (a & b & ->).
  rewrite !in_app_iff. tauto.
Qed.

Lemma replaceFirst_absent (p r s : jsstring) (c : N) :
  p = [c] -> ~ In c s -> replaceFirst p r s = s.
Proof.
  intros ->. induction s as [|x s IH]; intros H; simpl; [reflexivity|].
  destruct (N.eqb_spec c x) as [->|_].
  - destruct H. now left.
  - f_equal. apply IH. intros Hs. apply H. now right.
Qed.

Lemma replaceFirst_first (r a b : jsstring) (c : N) :
  ~ In c a -> replaceFirst [c] r (a ++ c :: b) = a ++ r ++ b.
Proof.
  induction a as [|x a IH]; intros H; simpl.
  - now rewrite N.eqb_refl.
  - destruct (N.eqb_spec c x) as [->|_].
    + destruct H. now left.
    + f_equal. apply IH. intros Hs. apply H. now right.
Qed.

Lemma replaceFirst_In (p r s : jsstring) (c : N) :
  In c (replaceFirst p r s) -> In c r \/ In c s.
Proof.
  induction s as [|x s IH]; simpl.
  - destruct (stripPrefix p []) as [l|] eqn:E; [|tauto].
    rewrite in_app_iff. intros [H|H]; [now left|].
    apply stripPrefix_Some in E. symmetry in E.
    apply app_eq_nil in E as [_ ->]. destruct H.
  - destruct (stripPrefix p (x :: s)) as [l|] eqn:E.
    + rewrite in_app_iff. intros [H|H]; [now left|].
      apply stripPrefix_Some in E. right. change (In c (x :: s)).
      rewrite E, in_app_iff. now right.
    + simpl. intros [H|H]; [right; now left|].
      destruct (IH H); [now left|right; now right].
Qed.

Lemma join_In (sep : jsstring) (l : list jsstring) (c : N) :
  In c (join sep l) -> In c sep \/ exists x, In x l /\ In c x.
Proof.
  induction l as [|x l IH]; simpl; [tauto|].
  destruct l as [|y l].
  - intros H. right. exists x. auto.
  - rewrite !in_app_iff. intros [H|[H|H]].
    + right. exists x. auto.
    + now left.
    + destruct (IH H) as [H'|(z & Hz & Hc)]; [now left|].
      right. exists z. auto.
Qed.

Lemma join_nonEmpty (sep x : jsstring) (l : list jsstring) :
  nonEmpty x = true -> nonEmpty (join sep (x :: l)) = true.
Proof.
  destruct x as [|c x]; [discriminate|]. intros _. now destruct l.
Qed.

Lemma lazyGroupThenEnd_all (s : jsstring) : lazyGroupThenEnd s = Some s.
Proof.
  induction s as [|c s IH]; simpl; [reflexivity|now rewrite IH].
Qed.

End StringFacts.

(** * The regular expression match *)

Opaque detailsMarker.

Lemma regexpMatch_None (s : jsstring) :
  indexOf detailsMarker s = None -> regexpMatch s = None.
Proof.
  induction s as [|c s IH]; simpl; unfold matchHere.
  - now destruct (stripPrefix detailsMarker []).
  - destruct (stripPrefix detailsMarker (c :: s)); [discriminate|].
    destruct (indexOf detailsMarker s); [discriminate|]. auto.
Qed.

Lemma regexpMatch_Some (s : jsstring) (n : nat) :
  indexOf detailsMarker s = Some n ->
  regexpMatch s
  = Some [Some (skipn n s); Some (skipn (n + length detailsMarker) s)].
Proof.
  revert n.
  assert (here : forall t r, stripPrefix detailsMarker t = Some r ->
            matchHere t = Some [Some t; Some (skipn (length detailsMarker) t)]).
  { intros t r E. unfold matchHere. rewrite E, lazyGroupThenEnd_all.
    apply stripPrefix_Some in E. subst t.
    now rewrite skipn_app, skipn_all, Nat.sub_diag. }
  induction s as [|c s IH]; intros n; simpl.
  - destruct (stripPrefix detailsMarker []) eqn:E; [|discriminate].
    intros [= <-]. now rewrite (here _ _ E).
  - destruct (stripPrefix detailsMarker (c :: s)) eqn:E.
    + intros [= <-]. now rewrite (here _ _ E).
    + destruct (indexOf detailsMarker s) as [m|]; [|discriminate].
      intros [= <-]. unfold matchHere at 1. rewrite E.
      now rewrite (IH m eq_refl).
Qed.

(** The parser returns normally on every input: capture group 1 always
    takes part in a match, so [trim] is never called on [undefined]. *)
Lemma parseTemplateContent_total (content : jsstring) :
  exists s, parseTemplateContent content = Normal s.
Proof.
  unfold parseTemplateContent.
  destruct (indexOf detailsMarker content) as [n|] eqn:E.
  - rewrite (regexpMatch_Some _ _ E). simpl. eauto.
  - rewrite (regexpMatch_None _ E). eauto.
Qed.

Lemma parseTemplateContent_first (content : jsstring) (n : nat) :
  indexOf detailsMarker content = Some n ->
  parseTemplateContent content
  = Normal (trim (skipn (n + length detailsMarker) content)).
Proof.
  intros E. unfold parseTemplateContent. now rewrite (regexpMatch_Some _ _ E).
Qed.

Lemma parseTemplateContent_fallback (content : jsstring) :
  indexOf detailsMarker content = None ->
  parseTemplateContent content = Normal content.
Proof.
  intros E. unfold parseTemplateContent. now rewrite (regexpMatch_None _ E).
Qed.

Transparent detailsMarker.

Lemma formatTemplateContent_split (data : FormData.t) :
  formatTemplateContent data
  = documentHead data ++ detailsMarker ++ detailsBody data.
Proof.
  unfold formatTemplateContent, detailsMarker. now rewrite <- !app_assoc.
Qed.

(** * Provenance of code units: lemmas *)

Lemma mem_In (c : N) (s : jsstring) : mem c s = true <-> In c s.
Proof.
  unfold mem. rewrite existsb_exists. split.
  - intros (x & Hx & E). apply N.eqb_eq in E. now subst.
  - intros H. exists c. split; [assumption|apply N.eqb_refl].
Qed.

Lemma inclb_sound (s alphabet : jsstring) :
  inclb s alphabet = true -> forall c, In c s -> In c alphabet.
Proof.
  unfold inclb. rewrite forallb_forall. intros H c Hc.
  apply mem_In. now apply H.
Qed.

Lemma avoids_fromTexts (c : N) (vs : list jsval) :
  avoids c vs = true -> ~ fromTexts c vs.
Proof.
  unfold avoids. rewrite forallb_forall. intros H (v & Hv & Hc).
  specialize (H v Hv). apply mem_In in Hc. now rewrite Hc in H.
Qed.

Lemma avoids_app (c : N) (a b : list jsval) :
  avoids c (a ++ b) = avoids c a && avoids c b.
Proof. apply forallb_app. Qed.

Lemma fromTexts_incl (c : N) (a b : list jsval) :
  incl a b -> fromTexts c a -> fromTexts c b.
Proof. intros H (v & Hv & Hc). exists v. auto. Qed.

Lemma truthy_toString (v : jsval) : truthy v = true -> toString v = strOf v.
Proof. now destruct v. Qed.

Lemma orElse_In (c : N) (v : jsval) (d : jsstring) :
  In c (orElse v d) -> In c d \/ In c (strOf v).
Proof.
  unfold orElse. destruct (truthy v) eqn:T; [|now left].
  rewrite (truthy_toString _ T). now right.
Qed.

Lemma orElse_empty_In (c : N) (v : jsval) :
  In c (orElse v (lit "")) -> In c (strOf v).
Proof. intros H. now destruct (orElse_In _ _ _ H). Qed.

Lemma formatDate_In (c : N) (v : jsval) :
  In c (formatDate v) -> In c (lit "年月") \/ In c (strOf v).
Proof.
  unfold formatDate. destruct (truthy v) eqn:T; simpl negb; cbv iota.
  - rewrite (truthy_toString _ T), in_app_iff.
    intros [H|H].
    + apply replaceFirst_In in H. destruct H as [H|H]; [left|now right].
      apply (inclb_sound (lit "年") (lit "年月")); [reflexivity|assumption].
    + left. apply (inclb_sound (lit "月") (lit "年月")); [reflexivity|assumption].
  - intros [].
Qed.

Ltac find_in :=
  solve [ reflexivity | assumption | left; find_in | right; find_in ].

(** The hypothesis [H : In c _] speaks of fixed text. *)
Ltac fixed_text H :=
  eapply inclb_sound; [|exact H]; vm_compute; reflexivity.

(** Splits [H : In c (x1 ++ ... ++ xn)] into one goal per piece, with the
    guarded interpolations opened. *)
Ltac split_pieces H :=
  rewrite ?in_app_iff in H;
  repeat match type of H with
         | _ \/ _ => destruct H as [H|H]
         end.

Ltac open_guard H :=
  match type of H with
  | In _ (if truthy ?v then _ else _) =>
    let T := fresh "T" in
    destruct (truthy v) eqn:T;
    [ rewrite (truthy_toString _ T) in H; split_pieces H
    | destruct H ]
  end.

Ltac to_text H :=
  match type of H with
  | In _ (orElse _ (lit "")) => apply orElse_empty_In in H
  | In _ (strOf _) => idtac
  end.

(** Closes a goal [In c templateAlphabet \/ fromTexts c [v1; ...; vn]]
    from a hypothesis on one piece of an entry. *)
Ltac entry_piece H :=
  first
    [ left; fixed_text H
    | to_text H;
      match type of H with
      | In _ (strOf ?v) => right; exists v; split; [simpl; find_in|exact H]
      end
    | apply formatDate_In in H; destruct H as [H|H];
      [ left; fixed_text H
      | match type of H with
        | In _ (strOf ?v) => right; exists v; split; [simpl; find_in|exact H]
        end ] ].

Lemma previousJobEntry_In (c : N) (job : WorkExperience.t) :
  In c (previousJobEntry job) ->
  In c templateAlphabet \/ fromTexts c (WorkExperience.texts job).
Proof.
  unfold previousJobEntry, WorkExperience.texts. intros H.
  split_pieces H; try open_guard H; entry_piece H.
Qed.

Lemma educationHistoryEntry_In (c : N) (edu : EducationHistory.t) :
  In c (educationHistoryEntry edu) ->
  In c templateAlphabet \/ fromTexts c (EducationHistory.texts edu).
Proof.
  unfold educationHistoryEntry, EducationHistory.texts. intros H.
  split_pieces H; try open_guard H; entry_piece H.
Qed.

Lemma entries_In (A : Type) (entry : A -> jsstring) (texts : A -> list jsval)
  (c : N) (l : list A) :
  (forall x, In c (entry x) -> In c templateAlphabet \/ fromTexts c (texts x)) ->
  In c (join (nl ++ nl) (map entry l)) ->
  In c templateAlphabet \/ fromTexts c (flat_map texts l).
Proof.
  intros Hentry H. apply join_In in H. destruct H as [H|(s & Hs & Hc)].
  - left. fixed_text H.
  - apply in_map_iff in Hs. destruct Hs as (x & <- & Hx).
    destruct (Hentry x Hc) as [H|(v & Hv & Hcv)]; [now left|].
    right. exists v. split; [|assumption].
    apply in_flat_map. eauto.
Qed.

Lemma educationHistoriesText_In (c : N) (data : FormData.t) :
  In c (educationHistoriesText data) ->
  In c templateAlphabet
  \/ fromTexts c (flat_map EducationHistory.texts
                    (FormData.additionalEducation data)).
Proof.
  unfold educationHistoriesText, FormData.additionalEducation.
  destruct (FormData.educationHistories data) as [l|]; [|intros []].
  apply entries_In. apply educationHistoryEntry_In.
Qed.

Lemma educationHistoriesText_nonEmpty (data : FormData.t) :
  nonEmpty (educationHistoriesText data) = hasAdditionalEducation data.
Proof.
  unfold educationHistoriesText, hasAdditionalEducation,
    FormData.additionalEducation.
  destruct (FormData.educationHistories data) as [[|edu l]|]; try reflexivity.
  apply join_nonEmpty. reflexivity.
Qed.

Lemma otherEducationSection_In (c : N) (data : FormData.t) :
  In c (otherEducationSection data) ->
  hasAdditionalEducation data = true
  /\ (In c otherEducationHeader
      \/ In c templateAlphabet
      \/ fromTexts c (flat_map EducationHistory.texts
                        (FormData.additionalEducation data))).
Proof.
  unfold otherEducationSection.
  rewrite educationHistoriesText_nonEmpty.
  destruct (hasAdditionalEducation data); [|intros []].
  intros H. split; [reflexivity|].
  split_pieces H.
  - now left.
  - right; left. fixed_text H.
  - right; left. fixed_text H.
  - right. now apply educationHistoriesText_In.
Qed.

Ltac in_otherTexts :=
  unfold FormData.otherTexts, CurrentJob.texts, Education.texts;
  rewrite ?in_app_iff; find_in.

Ltac head_field H :=
  match type of H with
  | In _ (strOf ?v) =>
    right; left; exists v; split; [in_otherTexts|exact H]
  end.

Lemma documentHead_In (c : N) (data : FormData.t) :
  In c (documentHead data) ->
  In c templateAlphabet
  \/ fromTexts c (FormData.otherTexts data)
  \/ (hasAdditionalEducation data = true /\ In c otherEducationHeader).
Proof.
  unfold documentHead. cbv zeta. intros H.
  repeat (apply in_app_or in H; destruct H as [H|H]); try open_guard H;
    try (left; fixed_text H);
    try (to_text H; head_field H);
    try (apply formatDate_In in H; destruct H as [H|H];
         [left; fixed_text H|head_field H]).
  - apply (entries_In _ previousJobEntry WorkExperience.texts) in H;
      [|intros x; apply previousJobEntry_In].
    destruct H as [H|H]; [now left|right; left].
    eapply fromTexts_incl; [|exact H]. intros x Hx. in_otherTexts.
  - apply otherEducationSection_In in H.
    destruct H as (E & [H|[H|H]]); [right; right; now split|now left|].
    right; left.
    eapply fromTexts_incl; [|exact H]. intros x Hx. in_otherTexts.
Qed.

Lemma formatTemplateContent_In (c : N) (data : FormData.t) :
  In c (formatTemplateContent data) ->
  In c documentAlphabet
  \/ fromTexts c (FormData.texts data)
  \/ (hasAdditionalEducation data = true /\ In c otherEducationHeader).
Proof.
  rewrite formatTemplateContent_split. intros H.
  unfold documentAlphabet, FormData.texts.
  apply in_app_or in H. destruct H as [H|H].
  - apply documentHead_In in H. destruct H as [H|[H|H]].
    + left. apply in_or_app. now left.
    + right; left. destruct H as (v & Hv & Hc). exists v. split; [|assumption].
      apply in_or_app. now left.
    + now right; right.
  - apply in_app_or in H. destruct H as [H|H].
    + left. apply in_or_app. right. apply in_or_app. now left.
    + unfold detailsBody in H. apply orElse_In in H. destruct H as [H|H].
      * left. do 2 (apply in_or_app; right). exact H.
      * right; left. exists (FormData.description data). split; [|assumption].
        apply in_or_app. right. now left.
Qed.

(** * The first occurrence of a pattern after a clean prefix *)

Lemma in_split_first (c : N) (p : jsstring) :
  In c p -> exists p1 p2, p = p1 ++ c :: p2 /\ ~ In c p1.
Proof.
  induction p as [|x p IH]; [intros []|].
  destruct (N.eq_dec x c) as [->|Hx].
  - intros _. exists [], p. auto.
  - intros [H|H]; [contradiction|].
    destruct (IH H) as (p1 & p2 & -> & Hp1).
    exists (x :: p1), p2. split; [reflexivity|].
    intros [E|E]; auto.
Qed.

Lemma stripPrefix_after_clean (c h : N) (p t b : jsstring) :
  In c p -> ~ In c (h :: t) -> stripPrefix p ((h :: t) ++ p ++ b) = None.
Proof.
  intros Hp Hh.
  destruct (stripPrefix p ((h :: t) ++ p ++ b)) as [r|] eqn:E; [|reflexivity].
  exfalso. apply stripPrefix_Some in E.
  destruct (in_split_first _ _ Hp) as (p1 & p2 & -> & Hp1).
  assert (L : nth_error (((h :: t) ++ p1) ++ c :: p2 ++ b) (length p1)
              = nth_error ((h :: t) ++ p1) (length p1)).
  { apply nth_error_app1. rewrite length_app. simpl. lia. }
  assert (R : nth_error (p1 ++ c :: p2 ++ r) (length p1) = Some c).
  { rewrite nth_error_app2, Nat.sub_diag; [reflexivity|lia]. }
  replace (((h :: t) ++ p1) ++ c :: p2 ++ b)
    with ((h :: t) ++ (p1 ++ c :: p2) ++ b) in L
    by (rewrite <- !app_assoc; reflexivity).
  rewrite E in L.
  replace ((p1 ++ c :: p2) ++ r) with (p1 ++ c :: p2 ++ r) in L
    by (rewrite <- app_assoc; reflexivity).
  rewrite R in L. symmetry in L. apply nth_error_In in L.
  apply in_app_or in L. tauto.
Qed.

Lemma indexOf_after_clean (c : N) (p h b : jsstring) :
  In c p -> ~ In c h -> indexOf p (h ++ p ++ b) = Some (length h).
Proof.
  intros Hp. induction h as [|x h IH]; intros Hh.
  - simpl. apply (indexOf_prefix _ _ b). apply stripPrefix_app.
  - change (indexOf p (x :: (h ++ p ++ b)) = Some (S (length h))).
    simpl indexOf.
    change (x :: h ++ p ++ b) with ((x :: h) ++ p ++ b).
    rewrite (stripPrefix_after_clean c x p h b Hp Hh).
    rewrite IH; [reflexivity|]. intros H. apply Hh. now right.
Qed.

Lemma documentHead_clean (c : N) (data : FormData.t) :
  mem c templateAlphabet = false ->
  mem c otherEducationHeader = false ->
  avoids c (FormData.otherTexts data) = true ->
  ~ In c (documentHead data).
Proof.
  intros Ht Hh Ha H. apply documentHead_In in H.
  destruct H as [H|[H|[_ H]]].
  - apply mem_In in H. congruence.
  - now apply (avoids_fromTexts _ _ Ha).
  - apply mem_In in H. congruence.
Qed.

(** When no property outside the details section holds the code unit
    詳, the first details marker of a document is the one the template
    writes. *)
Lemma first_marker_is_own (data : FormData.t) :
  avoids kanjiShou (FormData.otherTexts data) = true ->
  indexOf detailsMarker (formatTemplateContent data)
  = Some (length (documentHead data)).
Proof.
  intros Ha. rewrite formatTemplateContent_split.
  apply (indexOf_after_clean kanjiShou).
  - apply mem_In. reflexivity.
  - apply documentHead_clean; [reflexivity|reflexivity|assumption].
Qed.

(** * The parser and the formatter: claims *)

(** C1, as stated, fails: with no precondition on the other fields a
    summary that ends in the details header makes the regular expression
    match inside the summary section, and the parser returns the rest of
    the document instead of the trimmed description. *)
Lemma roundtrip_counterexample :
  FormData.description injectedRecord = Str (lit "d")
  /\ lit "d" <> []
  /\ parseTemplateContent (formatTemplateContent injectedRecord)
     <> Normal (trim (lit "d")).
Proof.
  split; [reflexivity|]. split; [discriminate|].
  vm_compute. discriminate.
Qed.

(** C1, amended: for every record with a non-empty description [d] whose
    document has its first details marker where the template writes it
    (no earlier field spells the marker), parsing the formatted document
    returns [d.trim()]. *)
Theorem roundtrip (data : FormData.t) (d : jsstring) :
  FormData.description data = Str d ->
  d <> [] ->
  indexOf detailsMarker (formatTemplateContent data)
  = Some (length (documentHead data)) ->
  parseTemplateContent (formatTemplateContent data) = Normal (trim d).
Proof.
  intros Hd Hne Hfirst.
  rewrite (parseTemplateContent_first _ _ Hfirst).
  rewrite formatTemplateContent_split.
  rewrite skipn_app, skipn_all2 by lia.
  replace (length (documentHead data) + length detailsMarker
           - length (documentHead data)) with (length detailsMarker) by lia.
  rewrite skipn_app, skipn_all, Nat.sub_diag. simpl app.
  unfold detailsBody, orElse. rewrite Hd. simpl.
  destruct d; [contradiction|reflexivity].
Qed.

Lemma roundtrip_witness :
  parseTemplateContent (formatTemplateContent roundtripRecord)
  = Normal (trim (lit " 開発を担当 ")).
Proof.
  apply roundtrip.
  - reflexivity.
  - discriminate.
  - vm_compute. reflexivity.
Defined.

(** The sufficient condition on the fields: the round trip holds whenever
    no property outside the details section holds the code unit 詳. *)
Lemma roundtrip_clean_fields (data : FormData.t) (d : jsstring) :
  FormData.description data = Str d ->
  d <> [] ->
  avoids kanjiShou (FormData.otherTexts data) = true ->
  parseTemplateContent (formatTemplateContent data) = Normal (trim d).
Proof.
  intros Hd Hne Ha.
  rewrite (parseTemplateContent_first _ _ (first_marker_is_own data Ha)).
  rewrite formatTemplateContent_split.
  rewrite skipn_app, skipn_all2 by lia.
  replace (length (documentHead data) + length detailsMarker
           - length (documentHead data)) with (length detailsMarker) by lia.
  rewrite skipn_app, skipn_all, Nat.sub_diag. simpl app.
  unfold detailsBody, orElse. rewrite Hd. simpl.
  destruct d; [contradiction|reflexivity].
Qed.

(** C2, as stated, fails: without a details marker the parser returns
    its input as it is, leading and trailing whitespace included. *)
Lemma fallback_counterexample :
  includes detailsMarker (lit " a") = false
  /\ parseTemplateContent (lit " a") <> Normal (trim (lit " a")).
Proof.
  split; [reflexivity|]. vm_compute. discriminate.
Qed.

(** C2, amended: for every input that does not contain the details
    marker (the header followed by two line feeds), the parser returns the
    input unchanged, without trimming it. *)
Theorem fallback (content : jsstring) :
  includes detailsMarker content = false ->
  parseTemplateContent content = Normal content.
Proof.
  unfold includes. intros H. apply parseTemplateContent_fallback.
  now destruct (indexOf detailsMarker content).
Qed.

Lemma fallback_witness :
  includes detailsMarker (lit " random text with no headers ") = false
  /\ parseTemplateContent (lit " random text with no headers ")
     = Normal (lit " random text with no headers ").
Proof.
  split; [reflexivity|]. apply fallback. reflexivity.
Defined.







(** C6: [formatDate] maps the empty string (and an absent date) to the
    empty string; on a non-empty date it replaces the first hyphen by 年
    and appends 月; a date without hyphen passes through with 月
    appended; nothing is validated. *)
Theorem formatDate_spec :
  formatDate (Str (lit "")) = lit ""
  /\ formatDate Undefined = lit ""
  /\ (forall a b, ~ In hyphen a ->
        formatDate (Str (a ++ lit "-" ++ b)) = a ++ lit "年" ++ b ++ lit "月")
  /\ (forall d, d <> [] -> ~ In hyphen d ->
        formatDate (Str d) = d ++ lit "月")
  /\ formatDate (Str (lit "2024-04")) = lit "2024年04月"
  /\ formatDate (Str (lit "2024-04-01")) = lit "2024年04-01月"
  /\ formatDate (Str (lit "April")) = lit "April月".
Proof.
  split; [reflexivity|]. split; [reflexivity|].
  split; [|split].
  - intros a b Ha. unfold formatDate.
    assert (T : truthy (Str (a ++ lit "-" ++ b)) = true) by now destruct a.
    rewrite T. simpl negb. cbv iota. simpl toString.
    change (lit "-" ++ b) with (hyphen :: b).
    change (lit "-") with [hyphen].
    rewrite (replaceFirst_first _ _ _ _ Ha). now rewrite <- !app_assoc.
  - intros d Hd Hh. unfold formatDate.
    assert (T : truthy (Str d) = true) by now destruct d.
    rewrite T. simpl negb. cbv iota. simpl toString.
    now rewrite (replaceFirst_absent (lit "-") _ d hyphen eq_refl Hh).
  - repeat split; vm_compute; reflexivity.
Qed.

Lemma formatDate_spec_witness :
  formatDate (Str (lit "2024" ++ lit "-" ++ lit "04"))
  = lit "2024" ++ lit "年" ++ lit "04" ++ lit "月".
Proof.
  apply (proj1 (proj2 (proj2 formatDate_spec))).
  vm_compute. intuition discriminate.
Defined.

(** * Sections of the document *)

Lemma includes_app_l (p s y : jsstring) :
  includes p s = true -> includes p (s ++ y) = true.
Proof.
  intros H. destruct (includes_true _ _ H) as (a & b & ->).
  replace ((a ++ p ++ b) ++ y) with (a ++ p ++ (b ++ y))
    by (now rewrite <- !app_assoc).
  apply includes_app.
Qed.

Lemma includes_app_r (p x s : jsstring) :
  includes p s = true -> includes p (x ++ s) = true.
Proof.
  intros H. destruct (includes_true _ _ H) as (a & b & ->).
  rewrite app_assoc. apply includes_app.
Qed.

Lemma documentHead_includes_section (p : jsstring) (data : FormData.t) :
  includes p (otherEducationSection data) = true ->
  includes p (documentHead data) = true.
Proof.
  intros H. unfold documentHead. cbv zeta.
  repeat match goal with
         | |- includes _ (otherEducationSection _ ++ _) = true => fail 1
         | |- includes _ (_ ++ _) = true => apply includes_app_r
         end.
  now apply includes_app_l.
Qed.

Lemma otherEducationSection_empty (data : FormData.t) :
  hasAdditionalEducation data = false -> otherEducationSection data = lit "".
Proof.
  intros H. unfold otherEducationSection.
  now rewrite educationHistoriesText_nonEmpty, H.
Qed.

Lemma otherEducationSection_emitted (data : FormData.t) :
  hasAdditionalEducation data = true ->
  otherEducationSection data
  = otherEducationHeader ++ nl ++ nl ++ educationHistoriesText data.
Proof.
  intros H. unfold otherEducationSection.
  now rewrite educationHistoriesText_nonEmpty, H.
Qed.

Lemma header_emitted (data : FormData.t) :
  hasAdditionalEducation data = true ->
  includes otherEducationHeader (formatTemplateContent data) = true.
Proof.
  intros H. unfold formatTemplateContent. apply includes_app_l.
  apply documentHead_includes_section.
  rewrite (otherEducationSection_emitted _ H).
  apply (includes_app otherEducationHeader []).
Qed.

(** A code unit that neither the fixed text nor the record holds does not
    occur in the document. *)
Lemma formatTemplateContent_clean (c : N) (data : FormData.t) :
  mem c documentAlphabet = false ->
  hasAdditionalEducation data = false \/ mem c otherEducationHeader = false ->
  avoids c (FormData.texts data) = true ->
  ~ In c (formatTemplateContent data).
Proof.
  intros Hd Hh Ha H. apply formatTemplateContent_In in H.
  destruct H as [H|[H|[E H]]].
  - apply mem_In in H. congruence.
  - now apply (avoids_fromTexts _ _ Ha).
  - apply mem_In in H. destruct Hh; congruence.
Qed.

Lemma header_absent (data : FormData.t) :
  hasAdditionalEducation data = false ->
  avoids kanjiTa (FormData.texts data) = true ->
  includes otherEducationHeader (formatTemplateContent data) = false.
Proof.
  intros He Ha.
  destruct (includes otherEducationHeader (formatTemplateContent data)) eqn:E;
    [|reflexivity].
  exfalso. apply (formatTemplateContent_clean kanjiTa data); auto.
  apply (includes_In _ _ _ E). apply mem_In. reflexivity.
Qed.

(** C7, as stated, fails: the formatter escapes nothing, so a record with
    an empty additional-education list whose summary spells the header
    yields a document that contains the header. *)
Lemma additional_education_counterexample :
  hasAdditionalEducation headerInSummaryRecord = false
  /\ includes otherEducationHeader (formatTemplateContent headerInSummaryRecord)
     = true.
Proof.
  split; vm_compute; reflexivity.
Qed.

(** C7, amended: the formatter emits the additional-education section,
    header and body, exactly when the list has at least one entry, and
    emits nothing in its place when the list is empty or absent; the
    document then contains the header when the list has an entry, and
    does not contain it when the list is empty or absent and no property
    of the record holds the code unit 他. *)
Theorem additional_education_omission (data : FormData.t) :
  (hasAdditionalEducation data = true ->
     otherEducationSection data
     = otherEducationHeader ++ nl ++ nl ++ educationHistoriesText data
     /\ includes otherEducationHeader (formatTemplateContent data) = true)
  /\ (hasAdditionalEducation data = false ->
        otherEducationSection data = lit ""
        /\ (avoids kanjiTa (FormData.texts data) = true ->
            includes otherEducationHeader (formatTemplateContent data)
            = false)).
Proof.
  split; intros H.
  - split; [now apply otherEducationSection_emitted|now apply header_emitted].
  - split; [now apply otherEducationSection_empty|now apply header_absent].
Qed.

Lemma additional_education_omission_witness :
  includes otherEducationHeader (formatTemplateContent historyRecord) = true
  /\ includes otherEducationHeader (formatTemplateContent roundtripRecord)
     = false.
Proof.
  split.
  - apply (proj1 (additional_education_omission historyRecord)).
    reflexivity.
  - apply (proj2 (additional_education_omission roundtripRecord));
      reflexivity.
Defined.

(** ** Absent properties render as empty ones *)

Lemma orElse_orBlank (v : jsval) (d : jsstring) :
  orElse (orBlank v) d = orElse v d.
Proof. now destruct v as [| |[|c s]]. Qed.

Lemma formatDate_orBlank (v : jsval) : formatDate (orBlank v) = formatDate v.
Proof. now destruct v as [| |[|c s]]. Qed.

Lemma guard_orBlank (v : jsval) (a b : jsstring) :
  (if truthy (orBlank v) then a ++ toString (orBlank v) ++ b else lit "")
  = (if truthy v then a ++ toString v ++ b else lit "").
Proof. now destruct v as [| |[|c s]]. Qed.

Lemma guard_orBlank_end (v : jsval) (a : jsstring) :
  (if truthy (orBlank v) then a ++ toString (orBlank v) else lit "")
  = (if truthy v then a ++ toString v else lit "").
Proof. now destruct v as [| |[|c s]]. Qed.

Lemma previousJobEntry_defaulted (job : WorkExperience.t) :
  previousJobEntry (defaultedJob job) = previousJobEntry job.
Proof.
  unfold previousJobEntry, defaultedJob.
  cbn [WorkExperience.companyName WorkExperience.companyUrl
       WorkExperience.startDate WorkExperience.endDate
       WorkExperience.position WorkExperience.title
       WorkExperience.achievements].
  now rewrite !orElse_orBlank, !formatDate_orBlank, guard_orBlank.
Qed.

Lemma educationHistoryEntry_defaulted (edu : EducationHistory.t) :
  educationHistoryEntry (defaultedHistory edu) = educationHistoryEntry edu.
Proof.
  unfold educationHistoryEntry, defaultedHistory.
  cbn [EducationHistory.schoolName EducationHistory.graduationDate
       EducationHistory.department EducationHistory.faculty
       EducationHistory.major].
  now rewrite !orElse_orBlank, !formatDate_orBlank, guard_orBlank,
    guard_orBlank_end.
Qed.

Lemma educationHistoriesText_defaulted (data : FormData.t) :
  educationHistoriesText (defaulted data) = educationHistoriesText data.
Proof.
  unfold educationHistoriesText, defaulted, FormData.additionalEducation.
  cbn [FormData.educationHistories].
  destruct (FormData.educationHistories data) as [l|]; [|reflexivity].
  rewrite map_map. f_equal. apply map_ext.
  apply educationHistoryEntry_defaulted.
Qed.

Lemma formatTemplateContent_defaulted (data : FormData.t) :
  formatTemplateContent (defaulted data) = formatTemplateContent data.
Proof.
  unfold formatTemplateContent, documentHead, detailsBody,
    otherEducationSection.
  rewrite educationHistoriesText_defaulted.
  unfold defaulted, defaultedEducation, defaultedCurrentJob. cbv zeta.
  cbn [FormData.name FormData.position FormData.industry FormData.experience
       FormData.summary FormData.skills FormData.description
       FormData.currentJob FormData.education FormData.previousJobs
       CurrentJob.companyName CurrentJob.companyUrl CurrentJob.startDate
       CurrentJob.position CurrentJob.title CurrentJob.achievements
       Education.university Education.faculty Education.department
       Education.graduationDate].
  rewrite !orElse_orBlank, !formatDate_orBlank, guard_orBlank.
  rewrite map_map.
  rewrite (map_ext _ _ previousJobEntry_defaulted).
  reflexivity.
Qed.

(** C8, as stated, fails: the body of the details section also equals
    the placeholder prompt when the description is that very text, which
    is what finishing an edit of a blank record stores. *)
Lemma details_counterexample :
  detailsBody placeholderRecord = placeholderPrompt
  /\ truthy (FormData.description placeholderRecord) = true
  /\ FormData.description placeholderRecord <> Str (lit "").
Proof.
  split; [reflexivity|]. split; [reflexivity|]. vm_compute. discriminate.
Qed.

(** C8, amended: every document ends with the details header, a blank
    line and the body; the body is the placeholder prompt exactly when the
    description is empty or absent or is itself the text of the prompt;
    absent properties render as empty ones; and a document holds neither
    "undefined" nor "null" unless a property of the record holds the
    letter u, in particular when every property is absent or empty. *)
Theorem details_section (data : FormData.t) :
  formatTemplateContent data
  = documentHead data ++ detailsHeader ++ nl ++ nl ++ detailsBody data
  /\ includes detailsHeader (formatTemplateContent data) = true
  /\ (detailsBody data = placeholderPrompt <->
      truthy (FormData.description data) = false
      \/ FormData.description data = Str placeholderPrompt)
  /\ formatTemplateContent data = formatTemplateContent (defaulted data)
  /\ (avoids letterU (FormData.texts data) = true ->
      includes (lit "undefined") (formatTemplateContent data) = false
      /\ includes (lit "null") (formatTemplateContent data) = false).
Proof.
  split; [reflexivity|]. split; [apply includes_app|]. split.
  - unfold detailsBody, orElse.
    destruct (FormData.description data) as [| |[|c s]]; simpl.
    + tauto.
    + tauto.
    + tauto.
    + split; [intros ->; now right|intros [H|H]; [discriminate|now inversion H]].
  - split; [now rewrite formatTemplateContent_defaulted|].
    intros Ha.
    assert (clean : ~ In letterU (formatTemplateContent data)).
    { apply formatTemplateContent_clean; auto. }
    split.
    + destruct (includes (lit "undefined") (formatTemplateContent data)) eqn:E;
        [|reflexivity].
      destruct clean. apply (includes_In _ _ _ E). apply mem_In. reflexivity.
    + destruct (includes (lit "null") (formatTemplateContent data)) eqn:E;
        [|reflexivity].
      destruct clean. apply (includes_In _ _ _ E). apply mem_In. reflexivity.
Qed.

Lemma details_section_witness :
  avoids letterU (FormData.texts missingRecord) = true
  /\ detailsBody missingRecord = placeholderPrompt
  /\ includes (lit "undefined") (formatTemplateContent missingRecord) = false
  /\ includes (lit "null") (formatTemplateContent missingRecord) = false.
Proof.
  split; [reflexivity|]. split; [reflexivity|].
  apply (proj2 (proj2 (proj2 (proj2 (details_section missingRecord))))).
  reflexivity.
Defined.

(** * The editor content bridge: claims *)

Lemma eqb_eq (a b : jsstring) : JS.eqb a b = true <-> a = b.
Proof.
  unfold JS.eqb. destruct (list_eq_dec N.eq_dec a b); split; congruence.
Qed.

Lemma eqb_refl (a : jsstring) : JS.eqb a a = true.
Proof. now apply eqb_eq. Qed.

Lemma eqb_neq (a b : jsstring) : a <> b -> JS.eqb a b = false.
Proof.
  intros H. destruct (JS.eqb a b) eqn:E; [|reflexivity].
  now apply eqb_eq in E.
Qed.

Section Bridge.

Import ResumeEditor.

(** The guard of the [HtmlRichEditor] component: empty content and
    content identical to the displayed one change nothing and call
    nothing. *)
Lemma html_change_suppressed (st : state) (content : jsstring) :
  content = [] \/ content = editorContent st ->
  Html.handleEditorChange content st = (Normal tt, st, []).
Proof.
  intros H. destruct st as [displayed editing]. simpl in H.
  unfold Html.handleEditorChange.
  destruct content as [|x c]; [reflexivity|].
  destruct H as [H|H]; [discriminate|]. subst displayed.
  cbn [nonEmpty negb]. unfold bind, get. cbn [editorContent].
  now rewrite eqb_refl.
Qed.

(** New non-empty content is stored and, while editing, parsed and
    handed to [onEdit] once. *)
Lemma html_change_propagates (st : state) (content : jsstring) :
  content <> [] ->
  content <> editorContent st ->
  exists parsed,
    parseTemplateContent content = Normal parsed
    /\ Html.handleEditorChange content st
       = (Normal tt, mkState content (internalIsEditing st),
          if internalIsEditing st then [onEdit parsed] else []).
Proof.
  intros Hne Hnew. destruct (parseTemplateContent_total content) as [parsed Hp].
  exists parsed. split; [assumption|].
  destruct st as [displayed editing]. simpl in Hnew.
  unfold Html.handleEditorChange.
  destruct content as [|c content]; [contradiction|].
  cbn [nonEmpty negb]. unfold bind at 1, get at 1.
  cbn [editorContent internalIsEditing].
  rewrite (eqb_neq _ _ Hnew).
  unfold setEditorContent, bind, get, put, tryCatch, lift, call, ret.
  cbn [editorContent internalIsEditing].
  destruct editing; [rewrite Hp|]; reflexivity.
Qed.

(** Two calls with the same content, the second one made from the render
    that follows the first: the second one calls nothing. *)
Lemma html_change_twice (st : state) (content : jsstring) :
  calls (Html.handleEditorChange content
           (finalState (Html.handleEditorChange content st))) = [].
Proof.
  destruct content as [|c content]; [reflexivity|].
  destruct (list_eq_dec N.eq_dec (c :: content) (editorContent st)) as [E|E].
  - rewrite (html_change_suppressed st (c :: content)) by auto.
    unfold finalState. cbn [fst snd].
    now rewrite (html_change_suppressed st (c :: content)) by auto.
  - destruct (html_change_propagates st (c :: content)) as (p & _ & ->);
      [discriminate|assumption|].
    unfold finalState. cbn [fst snd].
    now rewrite html_change_suppressed by (right; reflexivity).
Qed.

(** C3 holds of the [HtmlRichEditor] component and fails on the
    [MarkdownEditor] component, whose handler has neither guard: with
    editing active, content identical to the displayed one is handed to
    [onEdit] again, empty content is stored and handed to [onEdit], and
    two consecutive calls with the same content call [onEdit] twice. *)
Theorem markdown_change_not_suppressed :
  Markdown.handleEditorChange (lit "x") editingX
  = (Normal tt, editingX, [onEdit (lit "x")])
  /\ Markdown.handleEditorChange (lit "") editingX
     = (Normal tt, mkState (lit "") true, [onEdit (lit "")])
  /\ calls (Markdown.handleEditorChange (lit "y") editingX)
     ++ calls (Markdown.handleEditorChange (lit "y")
                 (finalState (Markdown.handleEditorChange (lit "y") editingX)))
     = [onEdit (lit "y"); onEdit (lit "y")].
Proof.
  repeat split; vm_compute; reflexivity.
Qed.

(** C4: whatever is displayed, [handleFinishEdit] first hands the parsed
    content to [onEdit] and then calls [onFinishEditing]; with the
    controller's [handleFinishEditing] behind that callback, the owner
    receives the description before [setIsEditing(false)] runs. *)
Theorem finish_editing_order (m : EditModeManager.state) (st : state) :
  exists parsed,
    parseTemplateContent (editorContent st) = Normal parsed
    /\ handleFinishEdit st = (Normal tt, st, [onEdit parsed; onFinishEditing])
    /\ finishEditingTrace m st
       = [inl parsed; inr (EditModeManager.setIsEditing false)].
Proof.
  destruct (parseTemplateContent_total (editorContent st)) as [parsed Hp].
  exists parsed. split; [assumption|].
  assert (run : handleFinishEdit st
                = (Normal tt, st, [onEdit parsed; onFinishEditing])).
  { unfold handleFinishEdit, bind, get, lift, call. now rewrite Hp. }
  split; [assumption|].
  unfold finishEditingTrace. now rewrite run.
Qed.

End Bridge.

(** * The direct-edit entry path: claims *)

Section DirectEdit.

Import DirectEditMode.

Lemma fetches_inv (p : props) (hasUser : bool) (st : state) :
  fetches p hasUser st = true ->
  hasAttemptedFetch st = false /\ isLoading st = false
  /\ isDirectEditMode p = true /\ truthy (param_id p) = true
  /\ hasUser = true.
Proof.
  unfold fetches. rewrite !andb_true_iff, !negb_true_iff. tauto.
Qed.

(** C9: when the query of the direct-edit path fails, the hook shows one
    error notification, navigates to the dashboard, never calls
    [setFormData], so the structured record of the owner stays as it was,
    and leaves the loading flag off. *)
Theorem fetch_failure (p : props) (hasUser : bool) (st : state)
  (response : completion Response) (formData : FormData.t) :
  fetches p hasUser st = true ->
  fetchFailed response = true ->
  let run := fetchResumeData p hasUser response st in
  (exists notification,
      isErrorToast notification = true
      /\ calls run = [notification; navigate (lit "/dashboard")])
  /\ recordAfter (calls run) formData = formData
  /\ (forall d, ~ In (setFormData d) (calls run))
  /\ result run = Normal tt
  /\ isLoading (finalState run) = false.
Proof.
  intros G F. apply fetches_inv in G.
  destruct G as (Ga & Gl & Gm & Gi & ->).
  destruct st as [l a]. simpl in Ga, Gl. subst l a.
  assert (shape : exists notification s,
             isErrorToast notification = true
             /\ fetchResumeData p true response (mkState false false)
                = (Normal tt, mkState false s,
                   [notification; navigate (lit "/dashboard")])).
  { unfold fetchResumeData, bind, get. simpl hasAttemptedFetch.
    simpl isLoading. rewrite Gm, Gi. simpl.
    destruct response as [r|e].
    - destruct r as [d e]. simpl in F.
      destruct e.
      + exists fetchFailedToast, true. split; reflexivity.
      + destruct d as [row|]; [discriminate|].
        exists notFoundToast, true. split; reflexivity.
    - exists exceptionToast, false. split; reflexivity. }
  destruct shape as (notification & s & Hn & Hrun).
  cbv zeta. rewrite Hrun. unfold calls, result, finalState. simpl.
  split; [exists notification; auto|].
  split.
  - destruct notification; try discriminate. reflexivity.
  - split; [|split; reflexivity].
    intros d [H|[H|[]]]; [|discriminate].
    subst notification. discriminate.
Qed.

Lemma fetch_failure_witness :
  calls (fetchResumeData editProps true failedResponse (mkState false false))
  = [fetchFailedToast; navigate (lit "/dashboard")]
  /\ recordAfter
       (calls (fetchResumeData editProps true failedResponse
                 (mkState false false))) missingRecord
     = missingRecord.
Proof.
  split; [reflexivity|].
  apply (fetch_failure editProps true (mkState false false) failedResponse
           missingRecord); reflexivity.
Defined.

(** Whatever the state and the guards, a record handed to [setFormData]
    is [resumeData row] for the fetched row. *)
Lemma populated_record (p : props) (hasUser : bool) (st : state)
  (r : Response) (d : FormData.t) :
  In (setFormData d) (calls (fetchResumeData p hasUser (Normal r) st)) ->
  exists row, data r = Some row /\ d = resumeData row.
Proof.
  unfold fetchResumeData, bind, get.
  destruct (hasAttemptedFetch st || isLoading st); [intros []|].
  destruct (negb (isDirectEditMode p) || negb (truthy (param_id p)));
    [intros []|].
  destruct (negb hasUser && isDirectEditMode p).
  - simpl. intros [H|[]]. discriminate.
  - destruct r as [[row|] e]; destruct e; simpl;
      try (intros [H|[H|[]]]; discriminate).
    destruct (isDirectEditMode p); simpl.
    + intros [H|[H|[H|[]]]]; try discriminate.
      exists row. split; [reflexivity|]. now inversion H.
    + intros [H|[H|[]]]; try discriminate.
      exists row. split; [reflexivity|]. now inversion H.
Qed.

(** C10, as stated, fails in its last part: the texts of the row are
    copied into the record and printed unescaped, so a row whose summary
    spells an additional-education section hydrates, with an empty
    additional-education list, to a document that contains the header and
    the body of that section. *)
Lemma hydration_counterexample :
  calls (fetchResumeData editProps true
           (Normal (mkResponse (Some spelledRow) false))
           (mkState false false))
  = [setFormData (resumeData spelledRow); setIsEditingAfter 0 true;
     loadedToast]
  /\ FormData.educationHistories (resumeData spelledRow) = Some []
  /\ includes spelledSection (formatTemplateContent (resumeData spelledRow))
     = true.
Proof.
  split; [reflexivity|]. split; [reflexivity|]. vm_compute. reflexivity.
Qed.

(** C10, amended: on every successful fetch of the direct-edit path the
    hook hands [resumeData row] to [setFormData]; whatever the row holds,
    the additional-education list of that record is empty, so the
    formatter emits no additional-education section for it, and the
    document does not contain the header of that section provided no text
    of the hydrated record holds the code unit 他. *)
Theorem hydration_drops_additional_education (p : props) (hasUser : bool)
  (st : state) (r : Response) (row : Row) :
  fetches p hasUser st = true ->
  error r = false ->
  data r = Some row ->
  let run := fetchResumeData p hasUser (Normal r) st in
  let d := resumeData row in
  calls run = [setFormData d; setIsEditingAfter 0 true; loadedToast]
  /\ (forall formData, recordAfter (calls run) formData = d)
  /\ FormData.educationHistories d = Some []
  /\ hasAdditionalEducation d = false
  /\ otherEducationSection d = lit ""
  /\ (avoids kanjiTa (FormData.texts d) = true ->
      includes otherEducationHeader (formatTemplateContent d) = false).
Proof.
  intros G He Hd. apply fetches_inv in G.
  destruct G as (Ga & Gl & Gm & Gi & ->).
  destruct st as [l a]. simpl in Ga, Gl. subst l a.
  destruct r as [d e]. simpl in He, Hd. subst d e.
  assert (run : calls (fetchResumeData p true
                         (Normal (mkResponse (Some row) false))
                         (mkState false false))
                = [setFormData (resumeData row); setIsEditingAfter 0 true;
                   loadedToast]).
  { unfold fetchResumeData, bind, get. simpl hasAttemptedFetch.
    simpl isLoading. rewrite Gm, Gi. reflexivity. }
  cbv zeta. rewrite run.
  split; [reflexivity|]. split; [reflexivity|]. split; [reflexivity|].
  split; [reflexivity|]. split; [reflexivity|].
  apply header_absent. reflexivity.
Qed.

Lemma hydration_drops_additional_education_witness :
  FormData.educationHistories (resumeData sampleRow) = Some []
  /\ recordAfter
       (calls (fetchResumeData editProps true
                 (Normal (mkResponse (Some sampleRow) false))
                 (mkState false false))) missingRecord
     = resumeData sampleRow
  /\ includes otherEducationHeader
       (formatTemplateContent (resumeData sampleRow)) = false.
Proof.
  destruct (hydration_drops_additional_education editProps true
              (mkState false false) (mkResponse (Some sampleRow) false)
              sampleRow eq_refl eq_refl eq_refl)
    as (_ & R & E & _ & _ & H).
  split; [exact E|]. split; [apply R|]. apply H. reflexivity.
Defined.

End DirectEdit.

(** * Further properties of the parser and the formatter *)

Section TrimFacts.

Local Open Scope N_scope.

Lemma trimStart_headOk (s : jsstring) : headOk (trimStart s).
Proof.
  induction s as [|c s IH]; simpl; [exact I|].
  destruct (isWhiteSpace c) eqn:E; [assumption|exact E].
Qed.

Lemma trimStart_fixed (s : jsstring) : headOk s -> trimStart s = s.
Proof.
  destruct s as [|c s]; simpl; [reflexivity|]. now intros ->.
Qed.

Lemma trimStart_keeps (x y : jsstring) (c : N) :
  isWhiteSpace c = false ->
  exists w, trimStart (x ++ c :: y) = w ++ c :: y.
Proof.
  intros Hc. induction x as [|a x IH]; simpl.
  - rewrite Hc. now exists [].
  - destruct (isWhiteSpace a); [assumption|]. now exists (a :: x).
Qed.

Lemma trimEnd_headOk (s : jsstring) : headOk s -> headOk (trimEnd s).
Proof.
  unfold trimEnd. destruct s as [|c s]; [intros _; exact I|].
  simpl headOk. intros Hc. simpl rev.
  destruct (trimStart_keeps (rev s) [] c Hc) as [w ->].
  rewrite rev_app_distr. exact Hc.
Qed.

Lemma trimEnd_idempotent (s : jsstring) : trimEnd (trimEnd s) = trimEnd s.
Proof.
  unfold trimEnd. rewrite rev_involutive.
  now rewrite (trimStart_fixed _ (trimStart_headOk (rev s))).
Qed.

Lemma trim_headOk (s : jsstring) : headOk (trim s).
Proof. apply trimEnd_headOk, trimStart_headOk. Qed.

Lemma trim_idempotent (s : jsstring) : trim (trim s) = trim s.
Proof.
  unfold trim at 1. rewrite (trimStart_fixed _ (trim_headOk s)).
  unfold trim. apply trimEnd_idempotent.
Qed.

(** A string that starts with a code unit that is not whitespace keeps
    it under [trim]. *)
Lemma trim_cons (c : N) (s : jsstring) :
  isWhiteSpace c = false -> exists t, trim (c :: s) = c :: t.
Proof.
  intros Hc. unfold trim. simpl trimStart. rewrite Hc.
  unfold trimEnd. simpl rev.
  destruct (trimStart_keeps (rev s) [] c Hc) as [w ->].
  rewrite rev_app_distr. simpl. eauto.
Qed.

End TrimFacts.

Lemma formatTemplateContent_head (data : FormData.t) :
  exists rest, formatTemplateContent data = 35%N :: rest.
Proof.
  unfold formatTemplateContent, documentHead. cbv zeta.
  change (lit "# 職務経歴書") with (35%N :: lit " 職務経歴書").
  cbn [app]. eexists. reflexivity.
Qed.

Lemma formatTemplateContent_not_blank (data : FormData.t) :
  nonEmpty (formatTemplateContent data) = true
  /\ JS.eqb (trim (formatTemplateContent data)) (lit "") = false.
Proof.
  destruct (formatTemplateContent_head data) as [rest ->].
  split; [reflexivity|].
  destruct (trim_cons 35 rest eq_refl) as [t ->].
  apply eqb_neq. discriminate.
Qed.

Lemma parse_after_clean_prefix (a b : jsstring) :
  ~ In kanjiShou a ->
  parseTemplateContent (a ++ detailsMarker ++ b) = Normal (trim b).
Proof.
  intros Ha.
  assert (first : indexOf detailsMarker (a ++ detailsMarker ++ b)
                  = Some (length a)).
  { apply (indexOf_after_clean kanjiShou); [|assumption].
    apply mem_In. reflexivity. }
  rewrite (parseTemplateContent_first _ _ first).
  rewrite skipn_app, skipn_all2 by lia.
  replace (length a + length detailsMarker - length a)
    with (length detailsMarker) by lia.
  now rewrite skipn_app, skipn_all, Nat.sub_diag.
Qed.

Lemma mem_false (c : N) (s : jsstring) : mem c s = false -> ~ In c s.
Proof.
  intros H Hc. apply mem_In in Hc. congruence.
Qed.

(** X1: the parser reads nothing above the details header.  Whatever text
    precedes the first details marker, as long as it does not hold the
    code unit 詳, the parser returns the trimmed text that follows the
    marker; two documents that differ only above the marker parse to the
    same description. *)
Theorem edits_above_details_are_dropped (a a' b : jsstring) :
  mem kanjiShou a = false ->
  mem kanjiShou a' = false ->
  parseTemplateContent (a ++ detailsMarker ++ b) = Normal (trim b)
  /\ parseTemplateContent (a' ++ detailsMarker ++ b)
     = parseTemplateContent (a ++ detailsMarker ++ b).
Proof.
  intros Ha Ha'.
  rewrite !parse_after_clean_prefix by now apply mem_false.
  split; reflexivity.
Qed.

Lemma edits_above_details_are_dropped_witness :
  parseTemplateContent (lit "# my own title" ++ detailsMarker ++ lit " body ")
  = Normal (lit "body").
Proof.
  apply (proj1 (edits_above_details_are_dropped (lit "# my own title")
                  (lit "") (lit " body ") eq_refl eq_refl)).
Defined.

(** X2: when the details marker is found, the description the parser
    returns is already trimmed: trimming it again changes nothing, and it
    does not start with whitespace. *)
Theorem parsed_description_is_trimmed (content : jsstring) :
  includes detailsMarker content = true ->
  exists parsed,
    parseTemplateContent content = Normal parsed
    /\ trim parsed = parsed
    /\ headOk parsed.
Proof.
  unfold includes. destruct (indexOf detailsMarker content) as [n|] eqn:E;
    [intros _|discriminate].
  eexists. split; [apply (parseTemplateContent_first _ _ E)|].
  split; [apply trim_idempotent|apply trim_headOk].
Qed.

Lemma parsed_description_is_trimmed_witness :
  exists parsed,
    parseTemplateContent (formatTemplateContent roundtripRecord)
    = Normal parsed
    /\ trim parsed = parsed
    /\ headOk parsed.
Proof.
  apply parsed_description_is_trimmed. reflexivity.
Defined.

(** X3: a record without description parses back to the placeholder.
    When the description is empty or absent and no other property holds
    the code unit 詳, parsing the formatted document yields the text of
    the placeholder prompt, not the empty string; finishing an edit right
    after the document was displayed hands that text to [onEdit]. *)
Theorem blank_description_parses_to_placeholder (data : FormData.t)
  (st : ResumeEditor.state) :
  truthy (FormData.description data) = false ->
  avoids kanjiShou (FormData.otherTexts data) = true ->
  parseTemplateContent (formatTemplateContent data) = Normal placeholderPrompt
  /\ calls (ResumeEditor.handleFinishEdit
              (finalState (ResumeEditorView.Html.syncContent (Some data) st)))
     = [ResumeEditor.onEdit placeholderPrompt; ResumeEditor.onFinishEditing].
Proof.
  intros Hd Ha.
  assert (parsed : parseTemplateContent (formatTemplateContent data)
                   = Normal placeholderPrompt).
  { rewrite formatTemplateContent_split.
    rewrite parse_after_clean_prefix.
    - unfold detailsBody, orElse. rewrite Hd. reflexivity.
    - apply documentHead_clean; [reflexivity|reflexivity|assumption]. }
  split; [assumption|].
  unfold ResumeEditorView.Html.syncContent. cbv zeta.
  destruct (formatTemplateContent_not_blank data) as [-> ->].
  unfold ResumeEditor.handleFinishEdit, ResumeEditor.setEditorContent,
    bind, get, put, lift, call, finalState, calls.
  cbn [fst snd ResumeEditor.editorContent negb andb].
  now rewrite parsed.
Qed.

Lemma blank_description_parses_to_placeholder_witness :
  parseTemplateContent (formatTemplateContent missingRecord)
  = Normal placeholderPrompt.
Proof.
  apply (proj1 (blank_description_parses_to_placeholder missingRecord
                  ResumeEditor.editingX eq_refl eq_refl)).
Defined.

(** * Further properties of the editor content bridge *)

Section BridgeView.

Import ResumeEditor ResumeEditorView.

(** X4: the guard of the content effect never holds a document back.
    A formatted document starts with the title line, so it is neither
    empty nor blank; the effect of the [HtmlRichEditor] component, its
    mount effect and the effect of the [MarkdownEditor] component all end
    with the formatted record displayed, whatever was displayed before,
    and call nothing. *)
Theorem content_effect_displays_document (data : FormData.t) (st : state) :
  trim (formatTemplateContent data) <> lit ""
  /\ Html.syncContent (Some data) st
     = (Normal tt, mkState (formatTemplateContent data) (internalIsEditing st),
        [])
  /\ Html.mountContent (Some data) st = Html.syncContent (Some data) st
  /\ Markdown.syncContent data st = Html.syncContent (Some data) st.
Proof.
  destruct (formatTemplateContent_not_blank data) as [Hn Hb].
  assert (run : Html.syncContent (Some data) st
                = (Normal tt,
                   mkState (formatTemplateContent data) (internalIsEditing st),
                   [])).
  { unfold Html.syncContent. cbv zeta. rewrite Hn, Hb. reflexivity. }
  split.
  - intros E. rewrite E in Hb. discriminate.
  - split; [assumption|]. rewrite run. split; reflexivity.
Qed.

(** X5: the editor surface is editable exactly while editing.  In both
    components the options handed to the tiptap editor make it editable
    exactly when [internalIsEditing] holds, never focus it, and start it
    with the displayed content; the [HtmlRichEditor] component renders the
    loading placeholder exactly when nothing is displayed, so the "content
    not loaded" text of [HtmlRichEditor] is never used. *)
Theorem editor_surface_options (st : state) :
  (Html.render st = None <-> editorContent st = [])
  /\ (forall p, Html.render st = Some p ->
        HtmlRichEditor.useEditorOptions p
        = HtmlRichEditor.mkEditorOptions (editorContent st) false
            (internalIsEditing st))
  /\ MarkdownEditor.useEditorOptions (Markdown.render st)
     = HtmlRichEditor.mkEditorOptions (editorContent st) false
         (internalIsEditing st).
Proof.
  destruct st as [[|c content] editing]; unfold Html.render; simpl.
  - split; [tauto|]. split; [discriminate|].
    now destruct editing.
  - split; [split; discriminate|]. split.
    + intros p [= <-]. now destruct editing.
    + now destruct editing.
Qed.

Lemma editor_surface_options_witness :
  HtmlRichEditor.useEditorOptions
    (HtmlRichEditor.mkProps (Str (lit "x")) None (Some false) None
       (Str (lit "x")) (Some false))
  = HtmlRichEditor.mkEditorOptions (lit "x") false true.
Proof.
  apply (proj1 (proj2 (editor_surface_options editingX))). reflexivity.
Defined.

(** X6: toggling the mode always changes the key of the editor element,
    in both components and whatever the record identifiers are, so the
    editor is remounted on every mode change. *)
Theorem editor_key_tells_mode (formData formData' : option FormData.t)
  (st st' : state) :
  (Html.editorKey formData st = Html.editorKey formData' st' ->
   internalIsEditing st = internalIsEditing st')
  /\ (Markdown.editorKey st = Markdown.editorKey st' ->
      internalIsEditing st = internalIsEditing st').
Proof.
  unfold Html.editorKey, Markdown.editorKey, boolToString.
  destruct (internalIsEditing st), (internalIsEditing st'); split;
    intros H; try reflexivity; vm_compute in H; discriminate H.
Qed.

Lemma editor_key_tells_mode_witness :
  internalIsEditing editingX = internalIsEditing (mkState (lit "y") true).
Proof.
  apply (proj2 (editor_key_tells_mode None None editingX
                  (mkState (lit "y") true))).
  reflexivity.
Defined.

Lemma html_change_step (content : jsstring) (st : state) :
  exists l,
    Html.handleEditorChange content st
    = (Normal tt,
       mkState (if nonEmpty content then content else editorContent st)
         (internalIsEditing st), l)
    /\ (length l <= 1)%nat
    /\ (internalIsEditing st = false -> l = []).
Proof.
  destruct content as [|c content].
  - exists []. rewrite html_change_suppressed by now left.
    destruct st. repeat split; auto.
  - destruct (list_eq_dec N.eq_dec (c :: content) (editorContent st)) as [E|E].
    + exists []. rewrite html_change_suppressed by now right.
      simpl nonEmpty. cbv iota. rewrite E. destruct st. repeat split; auto.
    + destruct (html_change_propagates st (c :: content)) as (p & _ & ->);
        [discriminate|assumption|].
      eexists. split; [reflexivity|].
      destruct (internalIsEditing st); simpl; split; auto; discriminate.
Qed.

Lemma markdown_change_step (content : jsstring) (st : state) :
  exists l,
    Markdown.handleEditorChange content st
    = (Normal tt, mkState content (internalIsEditing st), l)
    /\ (internalIsEditing st = false -> l = []).
Proof.
  destruct (parseTemplateContent_total content) as [parsed Hp].
  unfold Markdown.handleEditorChange, setEditorContent, bind, get, put, lift,
    call, ret.
  cbn [editorContent internalIsEditing].
  destruct (internalIsEditing st).
  - rewrite Hp. eexists. split; [reflexivity|discriminate].
  - exists []. split; reflexivity.
Qed.

(** X7: a read-only editor never propagates.  While [internalIsEditing]
    is off, a change notification of the editor surface calls no callback
    of the owner in either component, whatever the content, and leaves the
    flag off. *)
Theorem read_only_never_propagates (content : jsstring) (st : state) :
  internalIsEditing st = false ->
  calls (Html.handleEditorChange content st) = []
  /\ calls (Markdown.handleEditorChange content st) = []
  /\ internalIsEditing (finalState (Html.handleEditorChange content st))
     = false
  /\ internalIsEditing (finalState (Markdown.handleEditorChange content st))
     = false.
Proof.
  intros H.
  destruct (html_change_step content st) as (l & -> & _ & Hl).
  destruct (markdown_change_step content st) as (l' & -> & Hl').
  unfold calls, finalState. cbn [fst snd internalIsEditing].
  rewrite (Hl H), (Hl' H). auto.
Qed.

Lemma read_only_never_propagates_witness :
  calls (Markdown.handleEditorChange (lit "typed")
           (mkState (lit "x") false)) = [].
Proof.
  apply (proj1 (proj2 (read_only_never_propagates (lit "typed")
                         (mkState (lit "x") false) eq_refl))).
Defined.

(** X8: one change notification never empties the display of the
    [HtmlRichEditor] component.  For every content and every state of the
    render the handler belongs to, it returns normally, sets the displayed
    content to the content received when that is not empty and leaves it
    as it is otherwise, so a non-empty display stays non-empty, and it
    calls [onEdit] at most once; the handler of the [MarkdownEditor]
    component stores whatever it receives, the empty string included. *)
Theorem change_never_empties_display (content : jsstring) (st : state) :
  let html := Html.handleEditorChange content st in
  let markdown := Markdown.handleEditorChange content st in
  result html = Normal tt
  /\ finalState html
     = mkState (if nonEmpty content then content else editorContent st)
         (internalIsEditing st)
  /\ (length (calls html) <= 1)%nat
  /\ (nonEmpty (editorContent st) = true ->
      nonEmpty (editorContent (finalState html)) = true)
  /\ result markdown = Normal tt
  /\ finalState markdown = mkState content (internalIsEditing st).
Proof.
  cbv zeta.
  destruct (html_change_step content st) as (l & -> & Hl & _).
  destruct (markdown_change_step content st) as (l' & -> & _).
  unfold result, finalState, calls. cbn [fst snd editorContent].
  repeat split; auto.
  intros H. now destruct (nonEmpty content) eqn:E.
Qed.

Lemma change_never_empties_display_witness :
  nonEmpty
    (editorContent (finalState (Html.handleEditorChange (lit "") editingX)))
  = true.
Proof.
  apply (proj1 (proj2 (proj2 (proj2
           (change_never_empties_display (lit "") editingX))))).
  reflexivity.
Defined.

End BridgeView.

(** * Further properties of the direct-edit entry path *)

Section DirectEditGuardFacts.

Import DirectEditMode DirectEditGuards.

(** The outcome of every call of [fetchResumeData], by cases on the
    guards and on the response. *)
Lemma fetchResumeData_cases (p : props) (hasUser : bool)
  (response : completion Response) (st : state) :
  fetchResumeData p hasUser response st
  = if hasAttemptedFetch st || isLoading st then (Normal tt, st, [])
    else if negb (isDirectEditMode p) || negb (truthy (param_id p))
    then (Normal tt, st, [])
    else if negb hasUser then (Normal tt, st, [loginToast])
    else
      match response with
      | Throw _ =>
        (Normal tt, mkState false false,
         [exceptionToast; navigate (lit "/dashboard")])
      | Normal r =>
        if error r
        then (Normal tt, mkState false true,
              [fetchFailedToast; navigate (lit "/dashboard")])
        else
          match data r with
          | None => (Normal tt, mkState false true,
                     [notFoundToast; navigate (lit "/dashboard")])
          | Some row =>
            (Normal tt, mkState false true,
             [setFormData (resumeData row); setIsEditingAfter 0 true;
              loadedToast])
          end
      end.
Proof.
  destruct st as [l a]. unfold fetchResumeData, bind, get.
  cbn [hasAttemptedFetch isLoading fst snd].
  destruct a, l; try reflexivity.
  cbn [orb].
  destruct (isDirectEditMode p) eqn:Em; [|reflexivity].
  destruct (truthy (param_id p)); [|reflexivity].
  cbn [negb orb andb].
  destruct hasUser; [|reflexivity].
  cbn [negb andb].
  destruct response as [[[row|] e]|e]; destruct e; reflexivity.
Qed.

(** X9: [fetchResumeData] never throws and never leaves the loading flag
    on: whatever the guards and the response, a rejected promise
    included, the call returns normally and [isLoading] is off afterwards
    if it was off before. *)
Theorem fetch_always_settles (p : props) (hasUser : bool)
  (response : completion Response) (st : state) :
  isLoading st = false ->
  result (fetchResumeData p hasUser response st) = Normal tt
  /\ isLoading (finalState (fetchResumeData p hasUser response st)) = false.
Proof.
  intros H. rewrite fetchResumeData_cases.
  destruct (hasAttemptedFetch st || isLoading st); [now split|].
  destruct (negb (isDirectEditMode p) || negb (truthy (param_id p)));
    [now split|].
  destruct (negb hasUser); [now split|].
  destruct response as [[[row|] e]|e]; destruct e; now split.
Qed.

Lemma fetch_always_settles_witness :
  result (fetchResumeData editProps true (Throw TypeError)
            (mkState false false)) = Normal tt.
Proof.
  apply (proj1 (fetch_always_settles editProps true (Throw TypeError)
                  (mkState false false) eq_refl)).
Defined.

(** X10: the re-entry guard.  A query that resolves (with a row, with
    an error or with nothing) sets [hasAttemptedFetch]; and a call of
    [fetchResumeData] that belongs to a render in which
    [hasAttemptedFetch] or [isLoading] is set does nothing, whatever its
    arguments.  The flags are those of the render the function was created
    in: a function kept from an earlier render still sees the earlier
    flags. *)
Theorem fetch_guard_closes_after_attempt (p p' : props)
  (hasUser hasUser' : bool) (r : Response)
  (response' : completion Response) (st st' : state) :
  fetches p hasUser st = true ->
  hasAttemptedFetch st' = true \/ isLoading st' = true ->
  hasAttemptedFetch (finalState (fetchResumeData p hasUser (Normal r) st))
  = true
  /\ fetchResumeData p' hasUser' response' st' = (Normal tt, st', []).
Proof.
  intros G H. apply fetches_inv in G. destruct G as (Ga & Gl & Gm & Gi & ->).
  split.
  - rewrite fetchResumeData_cases, Ga, Gl, Gm, Gi. simpl.
    destruct r as [[row|] e]; destruct e; reflexivity.
  - rewrite fetchResumeData_cases.
    destruct H as [-> | ->]; [reflexivity|]. now rewrite orb_true_r.
Qed.

Lemma fetch_guard_closes_after_attempt_witness :
  fetchResumeData editProps true failedResponse (mkState false true)
  = (Normal tt, mkState false true, []).
Proof.
  apply (proj2 (fetch_guard_closes_after_attempt editProps editProps true true
                  (mkResponse None true) failedResponse
                  (mkState false false) (mkState false true)
                  eq_refl (or_introl eq_refl))).
Defined.

(** X11: a rejected promise is not counted as an attempt.  The flag
    [hasAttemptedFetch] is set after the query resolves, so when the
    promise is rejected the hook ends in the state it started from, and
    the next call queries again. *)
Theorem rejected_fetch_is_retried (p : props) (hasUser : bool) (st : state)
  (e : jserror) :
  fetches p hasUser st = true ->
  let after := finalState (fetchResumeData p hasUser (Throw e) st) in
  after = st
  /\ fetches p hasUser after = true
  /\ calls (fetchResumeData p hasUser (Throw e) after)
     = [exceptionToast; navigate (lit "/dashboard")].
Proof.
  intros G. pose proof G as G'. apply fetches_inv in G'.
  destruct G' as (Ga & Gl & Gm & Gi & ->).
  cbv zeta.
  assert (run : fetchResumeData p true (Throw e) st
                = (Normal tt, st,
                   [exceptionToast; navigate (lit "/dashboard")])).
  { rewrite fetchResumeData_cases, Ga, Gl, Gm, Gi. simpl.
    destruct st as [l a]. simpl in Ga, Gl. now subst. }
  rewrite run. unfold finalState. cbn [fst snd]. rewrite run.
  repeat split. assumption.
Qed.

Lemma rejected_fetch_is_retried_witness :
  finalState (fetchResumeData editProps true (Throw TypeError)
                (mkState false false))
  = mkState false false.
Proof.
  apply (proj1 (rejected_fetch_is_retried editProps true
                  (mkState false false) TypeError eq_refl)).
Defined.

(** X12: without a signed-in user the hook only notifies.  In edit mode
    with an identifier and no user, [fetchResumeData] shows the "login
    required" notification, which is not an error notification, makes no
    query (the response plays no part), does not navigate, does not
    populate the record and changes no flag, so every later call repeats
    the notification. *)
Theorem no_user_only_notifies (p : props) (response : completion Response)
  (st : state) :
  hasAttemptedFetch st = false ->
  isLoading st = false ->
  isDirectEditMode p = true ->
  truthy (param_id p) = true ->
  fetchResumeData p false response st = (Normal tt, st, [loginToast])
  /\ isErrorToast loginToast = false
  /\ navigates [loginToast] = false
  /\ populates [loginToast] = false.
Proof.
  intros Ga Gl Gm Gi.
  rewrite fetchResumeData_cases, Ga, Gl, Gm, Gi. repeat split.
Qed.

Lemma no_user_only_notifies_witness :
  fetchResumeData editProps false failedResponse (mkState false false)
  = (Normal tt, mkState false false, [loginToast]).
Proof.
  apply (proj1 (no_user_only_notifies editProps failedResponse
                  (mkState false false) eq_refl eq_refl eq_refl eq_refl)).
Defined.

(** X13: outside the direct-edit path the hook is inert.  In view mode, or
    when the route carries no identifier or an empty one, the mount effect
    and [fetchResumeData] change nothing and call nothing. *)
Theorem inert_without_edit_mode_or_id (p : props) (hasUser : bool)
  (response : completion Response) (st : state) :
  isDirectEditMode p = false \/ truthy (param_id p) = false ->
  onMount p st = (Normal tt, st, [])
  /\ fetchResumeData p hasUser response st = (Normal tt, st, []).
Proof.
  intros H. split.
  - unfold onMount. destruct H as [-> | ->]; [reflexivity|].
    now rewrite andb_false_r.
  - rewrite fetchResumeData_cases.
    destruct (hasAttemptedFetch st || isLoading st); [reflexivity|].
    destruct H as [-> | ->]; [reflexivity|]. now rewrite orb_true_r.
Qed.

Lemma inert_without_edit_mode_or_id_witness :
  fetchResumeData (mkProps edit (Str (lit ""))) true failedResponse
    (mkState false false)
  = (Normal tt, mkState false false, []).
Proof.
  apply (proj2 (inert_without_edit_mode_or_id (mkProps edit (Str (lit "")))
                  true failedResponse (mkState false false)
                  (or_intror eq_refl))).
Defined.

(** X14: the hook navigates away exactly when the query ran and failed,
    and populates the record exactly when the query ran and returned a row
    without error; it never does both, and does neither when a guard stops
    the call. *)
Theorem navigate_or_populate (p : props) (hasUser : bool)
  (response : completion Response) (st : state) :
  let run := calls (fetchResumeData p hasUser response st) in
  navigates run = fetches p hasUser st && fetchFailed response
  /\ populates run = fetches p hasUser st && negb (fetchFailed response).
Proof.
  cbv zeta. rewrite fetchResumeData_cases. unfold fetches.
  destruct st as [l a]. cbn [hasAttemptedFetch isLoading].
  destruct a, l; try (split; reflexivity).
  cbn [orb negb andb].
  destruct (isDirectEditMode p); [|split; reflexivity].
  destruct (truthy (param_id p)); [|split; reflexivity].
  cbn [orb negb andb].
  destruct hasUser; [|split; reflexivity].
  destruct response as [[[row|] e]|e]; destruct e; split; reflexivity.
Qed.

(** X16: hydrate, format, parse.  For a row with a non-empty description
    [d] whose other texts do not hold the code unit 詳, parsing the
    document formatted from the hydrated record returns [d.trim()]. *)
Theorem hydrated_description_round_trips (row : Row) (d : jsstring) :
  description row = Str d ->
  d <> [] ->
  avoids kanjiShou (FormData.otherTexts (resumeData row)) = true ->
  parseTemplateContent (formatTemplateContent (resumeData row))
  = Normal (trim d).
Proof.
  intros Hd Hne Ha. apply roundtrip_clean_fields; [|assumption|assumption].
  unfold resumeData. cbn [FormData.description]. rewrite Hd.
  destruct d; [contradiction|reflexivity].
Qed.

Lemma hydrated_description_round_trips_witness :
  parseTemplateContent (formatTemplateContent (resumeData sampleRow))
  = Normal (lit "開発").
Proof.
  apply (hydrated_description_round_trips sampleRow (lit "開発"));
    [reflexivity|discriminate|reflexivity].
Defined.

End DirectEditGuardFacts.

(** * Properties of the resize handle of [HtmlRichEditor] *)

Section ResizeFacts.

Import HtmlRichEditor.

Local Open Scope Z_scope.

Lemma currentHeight_bound (h measured : option Z) :
  match h with Some x => 100 <= x | None => True end ->
  match measured with Some m => m = 0 \/ 80 <= m | None => True end ->
  80 <= numberOr h (numberOr measured 200).
Proof.
  unfold numberOr. destruct h as [x|]; intros Hh Hm.
  - destruct (Z.eqb_spec x 0); lia.
  - destruct measured as [m|]; [|lia].
    destruct (Z.eqb_spec m 0); lia.
Qed.

Lemma heightOk_spec (st : state) :
  heightOk st = true <->
  match editorHeight st with Some x => 100 <= x | None => True end.
Proof.
  unfold heightOk. destruct (editorHeight st); [apply Z.leb_le|tauto].
Qed.

Lemma measuredAtLeast_key (key : jsstring) (measured : option Z) :
  measuredAtLeast 80 (keyDown key measured) = true ->
  match measured with Some m => m = 0 \/ 80 <= m | None => True end.
Proof.
  destruct measured as [m|]; [|trivial]. simpl.
  rewrite orb_true_iff, Z.eqb_eq, Z.leb_le. tauto.
Qed.

Lemma onResizeEvent_ok (e : resizeEvent) (st : state) :
  heightOk st = true ->
  measuredAtLeast 80 e = true ->
  exists st' l,
    onResizeEvent e st = (Normal tt, st', l) /\ heightOk st' = true.
Proof.
  intros Hst He. destruct e as [key measured|y measured|y|].
  - apply measuredAtLeast_key in He.
    pose proof (proj1 (heightOk_spec st) Hst) as Hh.
    pose proof (currentHeight_bound _ _ Hh He) as Hc.
    unfold onResizeEvent, handleResizeKeyDown.
    destruct (JS.eqb key (lit " ")), (JS.eqb key (lit "Enter")),
      (JS.eqb key (lit "Escape")), (JS.eqb key (lit "ArrowUp")),
      (JS.eqb key (lit "ArrowDown"));
      destruct st as [[] h sy sh];
      cbn [editorHeight] in Hc;
      cbv [bind get put call ret setIsResizing setEditorHeight isResizing
           editorHeight startYRef startHeightRef orb andb negb app];
      eexists; eexists; (split; [reflexivity|]);
      first [ exact Hst
            | apply heightOk_spec; cbn [editorHeight]; lia ].
  - destruct st as [r h sy sh]. unfold onResizeEvent, startResize.
    cbv [bind get put call ret setIsResizing isResizing editorHeight
         startYRef startHeightRef app].
    eexists; eexists. split; [reflexivity|exact Hst].
  - destruct st as [[] h [sy|] [sh|]]; unfold onResizeEvent, handleResize;
      cbv [bind get put call ret setEditorHeight isResizing editorHeight
           startYRef startHeightRef negb app];
      eexists; eexists; (split; [reflexivity|]);
      first [ exact Hst | apply heightOk_spec; cbn [editorHeight]; lia ].
  - destruct st as [r h sy sh]. unfold onResizeEvent, stopResize.
    cbv [bind get put editorHeight].
    eexists; eexists. split; [reflexivity|exact Hst].
Qed.

(** X17: the minimum height of the editor.  Starting from an unset height
    or one of at least 100 pixels, any sequence of key presses and pointer
    events on the resize handle leaves the height unset or at least 100
    pixels, provided every element measured is at least 80 pixels high;
    the handlers never throw. *)
Theorem resize_keeps_minimum_height (events : list resizeEvent) (st : state) :
  heightOk st = true ->
  forallb (measuredAtLeast 80) events = true ->
  result (onResizeEvents events st) = Normal tt
  /\ heightOk (finalState (onResizeEvents events st)) = true.
Proof.
  revert st. induction events as [|e events IH]; intros st Hst He.
  - split; [reflexivity|exact Hst].
  - simpl in He. apply andb_true_iff in He. destruct He as [He Hes].
    destruct (onResizeEvent_ok e st Hst He) as (st' & l & Hrun & Hst').
    assert (E : onResizeEvents (e :: events) st
                = (let '(r, s2, l2) := onResizeEvents events st' in
                   (r, s2, l ++ l2)))
      by (simpl onResizeEvents; unfold bind; now rewrite Hrun).
    rewrite E.
    destruct (IH st' Hst' Hes) as [Hr Hf].
    destruct (onResizeEvents events st') as [[r s2] l2].
    unfold result, finalState in *. cbn [fst snd] in *. now split.
Qed.

Lemma resize_keeps_minimum_height_witness :
  heightOk
    (finalState
       (onResizeEvents
          [keyDown (lit "Enter") None; keyDown (lit "ArrowUp") (Some 90);
           pointerDown 400 (Some 100); pointerMove 10; pointerUp]
          (mkState false None None None))) = true.
Proof.
  apply (resize_keeps_minimum_height
           [keyDown (lit "Enter") None; keyDown (lit "ArrowUp") (Some 90);
            pointerDown 400 (Some 100); pointerMove 10; pointerUp]
           (mkState false None None None)); reflexivity.
Defined.

(** X18: while resizing, ArrowDown followed by ArrowUp restores a height
    of at least 100 pixels, whereas ArrowUp followed by ArrowDown restores
    it only from 120 pixels on: below that the height ends at 120. *)
Theorem arrow_keys_round_trip (h : Z) (sy sh measured : option Z) :
  100 <= h ->
  let st := mkState true (Some h) sy sh in
  finalState
    (handleResizeKeyDown (lit "ArrowUp") measured
       (finalState (handleResizeKeyDown (lit "ArrowDown") measured st)))
  = st
  /\ finalState
       (handleResizeKeyDown (lit "ArrowDown") measured
          (finalState (handleResizeKeyDown (lit "ArrowUp") measured st)))
     = mkState true (Some (Z.max h 120)) sy sh.
Proof.
  intros Hh. cbv zeta.
  assert (nz : forall x, 100 <= x -> numberOr (Some x) (numberOr measured 200)
                                     = x).
  { intros x Hx. unfold numberOr. destruct (Z.eqb_spec x 0); [lia|reflexivity]. }
  assert (down : forall x, 100 <= x ->
            finalState (handleResizeKeyDown (lit "ArrowDown") measured
                          (mkState true (Some x) sy sh))
            = mkState true (Some (x + 20)) sy sh).
  { intros x Hx.
    unfold handleResizeKeyDown. vm_compute JS.eqb.
    cbv [bind get put call ret setEditorHeight isResizing editorHeight
         startYRef startHeightRef orb andb negb app finalState fst snd].
    now rewrite (nz x Hx). }
  assert (up : forall x, 100 <= x ->
            finalState (handleResizeKeyDown (lit "ArrowUp") measured
                          (mkState true (Some x) sy sh))
            = mkState true (Some (Z.max (x - 20) 100)) sy sh).
  { intros x Hx.
    unfold handleResizeKeyDown. vm_compute JS.eqb.
    cbv [bind get put call ret setEditorHeight isResizing editorHeight
         startYRef startHeightRef orb andb negb app finalState fst snd].
    now rewrite (nz x Hx). }
  split.
  - rewrite down, up by lia. do 2 f_equal. lia.
  - rewrite up, down by lia. do 2 f_equal. lia.
Qed.

Lemma arrow_keys_round_trip_witness :
  finalState
    (handleResizeKeyDown (lit "ArrowUp") None
       (finalState (handleResizeKeyDown (lit "ArrowDown") None
                      (mkState true (Some 300) None None))))
  = mkState true (Some 300) None None.
Proof.
  apply (proj1 (arrow_keys_round_trip 300 None None None ltac:(lia))).
Defined.

(** X19: the resize handle ignores arrows and pointer moves unless a
    resize is active: with [isResizing] off, a key other than space and
    Enter, and any pointer move, change nothing and do not call
    [preventDefault]. *)
Theorem resize_needs_activation (key : jsstring) (measured : option Z)
  (y : Z) (st : state) :
  isResizing st = false ->
  key <> lit " " ->
  key <> lit "Enter" ->
  handleResizeKeyDown key measured st = (Normal tt, st, [])
  /\ handleResize y st = (Normal tt, st, []).
Proof.
  intros Hr Hs He. destruct st as [r h sy sh]. simpl in Hr. subst r.
  unfold handleResizeKeyDown, handleResize.
  rewrite (eqb_neq _ _ Hs), (eqb_neq _ _ He).
  destruct (JS.eqb key (lit "Escape")), (JS.eqb key (lit "ArrowUp")),
    (JS.eqb key (lit "ArrowDown"));
    cbv [bind get put call ret isResizing orb andb negb app];
    split; reflexivity.
Qed.

Lemma resize_needs_activation_witness :
  handleResizeKeyDown (lit "ArrowDown") (Some 300)
    (mkState false (Some 200) None None)
  = (Normal tt, mkState false (Some 200) None None, []).
Proof.
  apply (proj1 (resize_needs_activation (lit "ArrowDown") (Some 300) 0
                  (mkState false (Some 200) None None) eq_refl
                  ltac:(discriminate) ltac:(discriminate))).
Defined.

End ResizeFacts.

(** * Properties of the keyboard shortcuts of [MarkdownEditor] *)

Section ShortcutFacts.

Import MarkdownEditor.

Lemma shortcut_key_cases (k : jsstring) :
  (k = lit "ArrowRight" \/ k = lit "ArrowLeft" \/ k = lit "ArrowUp"
   \/ k = lit "ArrowDown" \/ k = lit "T" \/ k = lit "1" \/ k = lit "2"
   \/ k = lit "3" \/ k = lit "f" \/ k = lit "e")
  \/ (JS.eqb k (lit "ArrowRight") = false /\ JS.eqb k (lit "ArrowLeft") = false
      /\ JS.eqb k (lit "ArrowUp") = false /\ JS.eqb k (lit "ArrowDown") = false
      /\ JS.eqb k (lit "T") = false /\ JS.eqb k (lit "1") = false
      /\ JS.eqb k (lit "2") = false /\ JS.eqb k (lit "3") = false
      /\ JS.eqb k (lit "f") = false /\ JS.eqb k (lit "e") = false).
Proof.
  destruct (JS.eqb k (lit "ArrowRight")) eqn:E1;
    [apply eqb_eq in E1; left; tauto|].
  destruct (JS.eqb k (lit "ArrowLeft")) eqn:E2;
    [apply eqb_eq in E2; left; tauto|].
  destruct (JS.eqb k (lit "ArrowUp")) eqn:E3;
    [apply eqb_eq in E3; left; tauto|].
  destruct (JS.eqb k (lit "ArrowDown")) eqn:E4;
    [apply eqb_eq in E4; left; tauto|].
  destruct (JS.eqb k (lit "T")) eqn:E5; [apply eqb_eq in E5; left; tauto|].
  destruct (JS.eqb k (lit "1")) eqn:E6; [apply eqb_eq in E6; left; tauto|].
  destruct (JS.eqb k (lit "2")) eqn:E7; [apply eqb_eq in E7; left; tauto|].
  destruct (JS.eqb k (lit "3")) eqn:E8; [apply eqb_eq in E8; left; tauto|].
  destruct (JS.eqb k (lit "f")) eqn:E9; [apply eqb_eq in E9; left; tauto|].
  destruct (JS.eqb k (lit "e")) eqn:E10; [apply eqb_eq in E10; left; tauto|].
  right. repeat split; reflexivity.
Qed.

Ltac shortcut_case :=
  vm_compute; repeat split; intros;
  first [ discriminate | reflexivity | lia | (left; reflexivity)
        | (right; reflexivity) ].

(** X20: one key press, at most one command.  Whatever the key and the
    modifiers, [handleKeyboardShortcuts] runs at most one editor command
    and calls [preventDefault] at most once, always before the command; it
    does nothing while the tiptap editor does not exist; and it runs a
    table command only in rich mode, inside a table, with Alt held. *)
Theorem shortcut_runs_at_most_one_command (hasEditor : bool)
  (editMode : EditorMode) (tableActive : bool) (event : KeyboardEvent) :
  let l := calls (handleKeyboardShortcuts hasEditor editMode tableActive
                    event tt) in
  (length (filter isPreventDefault l) <= 1)%nat
  /\ (length (filter (fun c => negb (isPreventDefault c)) l) <= 1)%nat
  /\ (l = [] \/ hd_error l = Some preventDefault)
  /\ (hasEditor = false -> l = [])
  /\ (existsb isTableCommand l = true ->
      isRich editMode && tableActive && altKey event = true).
Proof.
  destruct event as [a c s k].
  destruct (shortcut_key_cases k) as [H|H].
  - destruct H as [->|[->|[->|[->|[->|[->|[->|[->|[->| ->]]]]]]]]];
      destruct hasEditor, editMode, tableActive, a, c, s; shortcut_case.
  - destruct H as (E1 & E2 & E3 & E4 & E5 & E6 & E7 & E8 & E9 & E10).
    unfold handleKeyboardShortcuts. cbn [key altKey ctrlKey shiftKey].
    rewrite E1, E2, E3, E4, E5, E6, E7, E8, E9, E10.
    destruct hasEditor, editMode, tableActive, a, c, s; shortcut_case.
Qed.

Lemma shortcut_runs_at_most_one_command_witness :
  isRich rich && true && altKey (mkKeyboardEvent true false false
                                   (lit "ArrowRight")) = true.
Proof.
  apply (proj2 (proj2 (proj2 (proj2
           (shortcut_runs_at_most_one_command true rich true
              (mkKeyboardEvent true false false (lit "ArrowRight"))))))).
  reflexivity.
Defined.

End ShortcutFacts.

(** * Properties of sequences of mode changes *)

Section SessionFacts.

Import EditModeManager EditModeSession.

Lemma perform_step (a : action) (st : state) :
  exists l,
    perform a st
    = (Normal tt, mkState (pendingSaveRef st || isDirectEdit a), l)
    /\ (forall b, In (setIsEditing b) l -> b = false).
Proof.
  destruct st as [pending]. destruct a.
  - eexists. split.
    + unfold perform, handleDirectEdit, bind, call, put.
      cbn [pendingSaveRef isDirectEdit]. rewrite orb_true_r. reflexivity.
    + intros b [H|[H|[]]]; discriminate.
  - eexists. split.
    + unfold perform, handleFinishEditing, call.
      cbn [pendingSaveRef isDirectEdit]. rewrite orb_false_r. reflexivity.
    + intros b [H|[]]. now inversion H.
Qed.

(** X21: over any sequence of "direct edit" and "finish editing" calls the
    handlers of [useEditModeManager] never throw, [pendingSaveRef] is set
    by the first "direct edit" and never cleared again, and the only
    immediate mode change they make is switching editing off: switching it
    on is always deferred to a timer. *)
Theorem pending_save_is_never_cleared (l : list action) (st : state) :
  let run := performAll l st in
  result run = Normal tt
  /\ pendingSaveRef (finalState run)
     = pendingSaveRef st || existsb isDirectEdit l
  /\ (forall b, In (setIsEditing b) (calls run) -> b = false).
Proof.
  cbv zeta. revert st. induction l as [|a l IH]; intros st.
  - simpl. rewrite orb_false_r. repeat split. intros b [].
  - destruct (perform_step a st) as (l1 & Hrun & Hl1).
    assert (E : performAll (a :: l) st
                = (let '(r, s2, l2) :=
                     performAll l
                       (mkState (pendingSaveRef st || isDirectEdit a)) in
                   (r, s2, l1 ++ l2)))
      by (simpl performAll; unfold bind; now rewrite Hrun).
    rewrite E.
    destruct (IH (mkState (pendingSaveRef st || isDirectEdit a)))
      as (Hr & Hp & Hc).
    destruct (performAll l (mkState (pendingSaveRef st || isDirectEdit a)))
      as [[r s2] l2].
    unfold result, finalState, calls in *. cbn [fst snd] in *.
    split; [assumption|]. split.
    + rewrite Hp. cbn [pendingSaveRef existsb]. now rewrite orb_assoc.
    + intros b H. apply in_app_or in H. destruct H; auto.
Qed.

End SessionFacts.

Lemma pending_save_is_never_cleared_witness :
  EditModeManager.pendingSaveRef
    (finalState
       (EditModeSession.performAll
          [EditModeSession.directEdit; EditModeSession.finishEditing]
          (EditModeManager.mkState false))) = true.
Proof.
  apply (proj1 (proj2 (pending_save_is_never_cleared
                         [EditModeSession.directEdit;
                          EditModeSession.finishEditing]
                         (EditModeManager.mkState false)))).
Defined.
